(** * Real-time collaboration core of codecollab-backend

    Shallow embedding of the Socket.IO handlers of [server.js] and of the
    execution route of [execute-routes.js].

    [server.js] holds three successive versions of the server, one after
    the other.  Module [V1] embeds the first one (lines 1-463: the version
    with [handleUserLeaveSession] and the typing timeout in [code-change]),
    module [V3] the last one (lines 1045-1490: the version with
    [sessionChats]), module [V2] the middle one (lines 753-989).  Module
    [Exec] embeds the execution paths, [Routes] the helpers and routes of
    [execute-routes.js] with [Session.addExecution], [CodeDoc] the
    methods of the [CodeState] model, and [Cors] the CORS configuration
    of [server.js].

    JavaScript [Map]s keyed by session id are stdpp [gmap]s; the per-socket
    fields [socket.userData] and [socket.currentSession] live in a [gmap]
    from socket id; the Socket.IO rooms are a [gmap] from room to the
    [gset] of its sockets.  [Date.now()] and [Math.random()] are inputs of
    the events that read them.  Falsy strings ([undefined], [''])
    are [EmptyString]. *)

From Stdlib Require Import QArith Lqa.
From stdpp Require Import base gmap strings list.

Open Scope string_scope.

(* ------------------------------------------------------------------ *)
(** ** Strings *)

Definition chr (n : nat) : string := String (Ascii.ascii_of_nat n) EmptyString.
Definition nl : string := chr 10.
Definition dq : string := chr 34.

Definition is_empty (s : string) : bool :=
  match s with EmptyString => true | _ => false end.

(** Characters removed by [String.prototype.trim] (ASCII part). *)
Definition js_space (c : Ascii.ascii) : bool :=
  let n := Ascii.nat_of_ascii c in
  (n =? 32)%nat || (n =? 9)%nat || (n =? 10)%nat || (n =? 11)%nat
  || (n =? 12)%nat || (n =? 13)%nat.

Fixpoint trim_left (s : string) : string :=
  match s with
  | EmptyString => EmptyString
  | String c r => if js_space c then trim_left r else s
  end.

Definition str_rev (s : string) : string :=
  String.string_of_list_ascii (rev (String.list_ascii_of_string s)).

(** [message.trim()] *)
Definition js_trim (s : string) : string :=
  str_rev (trim_left (str_rev (trim_left s))).

(** [Date.now() + Math.random()] in double precision: the exact sum
    rounded to the nearest double, ties to the even significand.
    [Date.now()] is a positive integer below 2^53, so the sum lies in the
    binade [[2^e, 2^(e+1)]] of [now] (e = log2 now), whose doubles are the
    multiples of 2^(e-52); the quotient [q] and remainder [r] below are
    those of the sum scaled to units of 2^(e-52). *)
Definition js_now_plus_random (now : Z) (rnd : Q) : Q :=
  if (now <=? 0)%Z then (inject_Z now + rnd)%Q
  else
    let e := Z.log2 now in
    let up := Z.max 0 (52 - e) in
    let down := Z.max 0 (e - 52) in
    let num := ((now * Zpos (Qden rnd) + Qnum rnd) * 2 ^ up)%Z in
    let den := (Zpos (Qden rnd) * 2 ^ down)%Z in
    let q := (num / den)%Z in
    let r := (num mod den)%Z in
    let q' := if (den <? 2 * r)%Z || ((2 * r =? den)%Z && Z.odd q) then (q + 1)%Z else q in
    Qmake (q' * 2 ^ down) (Z.to_pos (2 ^ up)).

(** [a || 'Anonymous'] on an optional string. *)
Definition or_anonymous (o : option string) : string :=
  match o with
  | Some u => if is_empty u then "Anonymous" else u
  | None => "Anonymous"
  end.

(* ------------------------------------------------------------------ *)
(** ** Data shared by all versions *)

(** The user object a client sends ([{ id, username, ... }]). *)
Record User := mkUser { u_id : string; u_username : string }.

Record Position := mkPosition { line : Z; column : Z }.

(** Entry of [activeSessions.get(sessionId)]:
    [{ ...user, socketId, joinedAt, isTyping, status, cursor }]
    plus the [lastActivity] field written by [code-change] (V1). *)
Record Participant := mkParticipant {
  p_user : User;
  p_socketId : string;
  p_joinedAt : Z;
  p_isTyping : bool;
  p_status : string;
  p_cursor : Position;
  p_lastActivity : option Z
}.

(** [chatMessage] of the V3 [chat-message] handler; its [id] is
    [Date.now() + Math.random()] ([js_now_plus_random]). *)
Record ChatMessage := mkChat {
  c_id : Q;
  c_message : string;
  c_userId : option string;
  c_username : option string;
  c_timestamp : Z;
  c_socketId : string
}.

(** The fields Socket.IO handlers attach to [socket]. *)
Record Sock := mkSock {
  sk_userData : option User;
  sk_currentSession : option string
}.

Definition fresh_sock : Sock := mkSock None None.

(** Who an [emit] is addressed to:
    [socket.emit] / [socket.to(room).emit] / [io.to(room).emit]. *)
Inductive Target :=
| ToSocket (sid : string)
| ToRoomExcept (room : string) (sender : string)
| ToRoom (room : string).

Inductive Payload :=
| PMessage (msg : string)
| PCode (code : string)
| PChatHistory (msgs : list ChatMessage)
| PParticipants (ps : list Participant)
| PUserJoined (u : User) (socketId : string)
| PUserLeft (socketId : string)
| PCount (n : nat)
| PCodeChange (code operation from socketId : string)
| PTyping (socketId : string) (isTyping : bool)
| PCursor (socketId : string) (pos : Position)
| PChat (m : ChatMessage)
| PExec (info : string).

Record Out := mkOut { o_target : Target; o_event : string; o_payload : Payload }.

(** Socket.IO delivery: the sockets an emission reaches. *)
Definition recipients (rooms : gmap string (gset string)) (t : Target) : gset string :=
  match t with
  | ToSocket s => {[ s ]}
  | ToRoomExcept r s => default ∅ (rooms !! r) ∖ {[ s ]}
  | ToRoom r => default ∅ (rooms !! r)
  end.

(** [socket.join(room)] and [socket.leave(room)]. *)
Definition io_join (rooms : gmap string (gset string)) (r s : string) :=
  <[ r := {[ s ]} ∪ default ∅ (rooms !! r) ]> rooms.
Definition io_leave (rooms : gmap string (gset string)) (r s : string) :=
  <[ r := default ∅ (rooms !! r) ∖ {[ s ]} ]> rooms.
(** On disconnect Socket.IO removes the socket from every room. *)
Definition io_leave_all (rooms : gmap string (gset string)) (s : string) :=
  (fun m => m ∖ {[ s ]}) <$> rooms.

(** Values of a participant map, [Array.from(sessionUsers.values())]
    (in the map's own order). *)
Definition values (m : gmap string Participant) : list Participant :=
  map snd (map_to_list m).

(** The participant record built by [join-session]. *)
Definition new_participant (u : User) (s : string) (now : Z) (c : Position) :=
  mkParticipant u s now false "active" c None.

(* ------------------------------------------------------------------ *)
(** ** V3: the last version of [server.js] (lines 1045-1490) *)

Module V3.

(** [sessionCursors.get(sessionId)] entries:
    [{ userId, username, position, lastUpdate }]. *)
Record CursorEntry := mkCursor {
  cu_userId : option string;
  cu_username : option string;
  cu_position : Position;
  cu_lastUpdate : Z
}.

Record State := mkState {
  activeSessions : gmap string (gmap string Participant);
  userSockets : gmap string string;
  sessionCode : gmap string string;
  sessionCursors : gmap string (gmap string CursorEntry);
  sessionChats : gmap string (list ChatMessage);
  sockets : gmap string Sock;
  ioRooms : gmap string (gset string)
}.

Definition init : State := mkState ∅ ∅ ∅ ∅ ∅ ∅ ∅.

Definition sock (st : State) (s : string) : Sock := default fresh_sock (sockets st !! s).

(** [sessionCode.get(sessionId)]: the snapshot of a room's buffer. *)
Definition snapshot (st : State) (r : string) : option string := sessionCode st !! r.

Definition welcome : string :=
  "// Welcome to CodeCollab!" ++ nl ++ "// Start coding together!" ++ nl ++ nl
  ++ "console.log(" ++ dq ++ "Hello, World!" ++ dq ++ ");".

Definition user_name (st : State) (s : string) : option string :=
  u_username <$> sk_userData (sock st s).
Definition user_id (st : State) (s : string) : option string :=
  u_id <$> sk_userData (sock st s).

(** [socket.on('authenticate', userData => ...)] *)
Definition authenticate (st : State) (s : string) (ud : option User) : State * list Out :=
  let err := (st, [mkOut (ToSocket s) "auth-error" (PMessage "Invalid user data")]) in
  match ud with
  | None => err
  | Some u =>
      if is_empty (u_id u) || is_empty (u_username u) then err
      else (mkState (activeSessions st) (<[u_id u := s]> (userSockets st)) (sessionCode st)
              (sessionCursors st) (sessionChats st)
              (<[s := mkSock (Some u) (sk_currentSession (sock st s))]> (sockets st))
              (ioRooms st),
            [mkOut (ToSocket s) "auth-success" (PMessage "Authentication successful")])
  end.

(** [socket.on('join-session', ...)] *)
Definition join_session (st : State) (s sessionId : string) (user : option User) (now : Z)
  : State * list Out :=
  match user with
  | Some u =>
      if is_empty sessionId then
        (st, [mkOut (ToSocket s) "error" (PMessage "Invalid session data")])
      else
        let rooms := io_join (ioRooms st) sessionId s in
        let socks := <[s := mkSock (sk_userData (sock st s)) (Some sessionId)]> (sockets st) in
        let fresh := match activeSessions st !! sessionId with None => true | Some _ => false end in
        let act := if fresh then <[sessionId := ∅]> (activeSessions st) else activeSessions st in
        let code := if fresh then <[sessionId := welcome]> (sessionCode st) else sessionCode st in
        let curs := if fresh then <[sessionId := ∅]> (sessionCursors st) else sessionCursors st in
        let chats := if fresh then <[sessionId := []]> (sessionChats st) else sessionChats st in
        let users := <[s := new_participant u s now (mkPosition 1 1)]>
                       (default ∅ (act !! sessionId)) in
        let participants := values users in
        (mkState (<[sessionId := users]> act) (userSockets st) code curs chats socks rooms,
         [mkOut (ToSocket s) "code-sync" (PCode (default EmptyString (code !! sessionId)));
          mkOut (ToSocket s) "chat-history" (PChatHistory (default [] (chats !! sessionId)));
          mkOut (ToSocket s) "session-participants" (PParticipants participants);
          mkOut (ToRoomExcept sessionId s) "user-joined" (PUserJoined u s);
          mkOut (ToRoom sessionId) "participant-count-update" (PCount (length participants))])
  | None => (st, [mkOut (ToSocket s) "error" (PMessage "Invalid session data")])
  end.

(** [socket.on('code-change', ...)]: the stored code is overwritten with
    [code]; [operation] only travels in the broadcast. *)
Definition code_change (st : State) (s sessionId code operation : string) : State * list Out :=
  match sk_currentSession (sock st s) with
  | Some _ =>
      if is_empty sessionId then (st, [])
      else
        (mkState (activeSessions st) (userSockets st) (<[sessionId := code]> (sessionCode st))
                 (sessionCursors st) (sessionChats st) (sockets st) (ioRooms st),
         [mkOut (ToRoomExcept sessionId s) "code-change"
            (PCodeChange code (if is_empty operation then "edit" else operation)
               (or_anonymous (user_name st s)) s)])
  | None => (st, [])
  end.

(** [chatHistory.push(chatMessage)] followed by
    [if (chatHistory.length > 100) chatHistory.splice(0, chatHistory.length - 100)]. *)
Definition chat_push (l : list ChatMessage) (m : ChatMessage) : list ChatMessage :=
  let l' := app l [m] in
  if (100 <? length l')%nat then drop (length l' - 100) l' else l'.

(** [socket.on('chat-message', ...)]; [now] is [Date.now()] and [rnd] is
    [Math.random()]. *)
Definition chat_message (st : State) (s sessionId message : string) (now : Z) (rnd : Q)
  : State * list Out :=
  match sk_currentSession (sock st s) with
  | Some _ =>
      if is_empty sessionId || is_empty message then (st, [])
      else
        let m := mkChat (js_now_plus_random now rnd) (js_trim message) (user_id st s)
                        (user_name st s) now s in
        let chats := match sessionChats st !! sessionId with
                     | Some h => <[sessionId := chat_push h m]> (sessionChats st)
                     | None => sessionChats st
                     end in
        (mkState (activeSessions st) (userSockets st) (sessionCode st) (sessionCursors st)
                 chats (sockets st) (ioRooms st),
         [mkOut (ToRoom sessionId) "chat-message" (PChat m)])
  | None => (st, [])
  end.

(** [socket.on('disconnect', ...)]; Socket.IO has already taken the socket
    out of its rooms when the handler runs. *)
Definition disconnect (st : State) (s : string) : State * list Out :=
  let rooms := io_leave_all (ioRooms st) s in
  let us := match sk_userData (sock st s) with
            | Some u => if is_empty (u_id u) then userSockets st
                        else delete (u_id u) (userSockets st)
            | None => userSockets st
            end in
  match sk_currentSession (sock st s) with
  | Some sid =>
      let act := alter (delete s) sid (activeSessions st) in
      let curs := alter (delete s) sid (sessionCursors st) in
      (mkState act us (sessionCode st) curs (sessionChats st) (sockets st) rooms,
       app [mkOut (ToRoomExcept sid s) "user-left" (PUserLeft s)]
         (match act !! sid with
          | Some users => [mkOut (ToRoom sid) "participant-count-update" (PCount (size users))]
          | None => []
          end))
  | None =>
      (mkState (activeSessions st) us (sessionCode st) (sessionCursors st) (sessionChats st)
               (sockets st) rooms, [])
  end.

(** [socket.on('leave-session', ({ sessionId }) => ...)] *)
Definition leave_session (st : State) (s sessionId : string) : State * list Out :=
  match sk_currentSession (sock st s) with
  | Some cur =>
      if negb (is_empty sessionId) && String.eqb cur sessionId then
        (mkState (alter (delete s) sessionId (activeSessions st)) (userSockets st)
                 (sessionCode st) (sessionCursors st) (sessionChats st)
                 (<[s := mkSock (sk_userData (sock st s)) None]> (sockets st))
                 (io_leave (ioRooms st) sessionId s),
         [mkOut (ToRoomExcept sessionId s) "user-left" (PUserLeft s)])
      else (st, [])
  | None => (st, [])
  end.

Inductive Event :=
| Authenticate (s : string) (ud : option User)
| Join (s sessionId : string) (user : option User) (now : Z)
| CodeChange (s sessionId code operation : string)
| ChatMsg (s sessionId message : string) (now : Z) (rnd : Q)
| LeaveSession (s sessionId : string)
| Disconnect (s : string).

Definition step (st : State) (e : Event) : State * list Out :=
  match e with
  | Authenticate s ud => authenticate st s ud
  | Join s r u now => join_session st s r u now
  | CodeChange s r c op => code_change st s r c op
  | ChatMsg s r m now rnd => chat_message st s r m now rnd
  | LeaveSession s r => leave_session st s r
  | Disconnect s => disconnect st s
  end.

Fixpoint run (st : State) (es : list Event) : State :=
  match es with
  | [] => st
  | e :: es' => run (fst (step st e)) es'
  end.

End V3.

(* ------------------------------------------------------------------ *)
(** ** V1: the first version of [server.js] (lines 1-463) *)

Module V1.

(** The participant [Map] of a session.  [rm_inst] tells [Map] objects
    apart: the typing timer of [code-change] closes over the [Map] object
    [sessionUsers], not over the session id, so a session destroyed and
    created again gets a new object. *)
Record RoomMap := mkRoomMap { rm_inst : nat; rm_users : gmap string Participant }.

(** A pending [setTimeout(..., 2000)] of [code-change]: its deadline, the
    session id and [Map] object it captured, and [socket.id]. *)
Record Timer := mkTimer {
  tm_deadline : Z;
  tm_room : string;
  tm_inst : nat;
  tm_socket : string
}.

Record State := mkState {
  activeSessions : gmap string RoomMap;
  userSockets : gmap string string;
  sessionCode : gmap string string;
  sessionCursors : gmap string (gmap string Position);
  sockets : gmap string Sock;
  ioRooms : gmap string (gset string);
  timers : list Timer;
  nextMap : nat
}.

Definition init : State := mkState ∅ ∅ ∅ ∅ ∅ ∅ [] 0.

Definition set_act st a := mkState a (userSockets st) (sessionCode st) (sessionCursors st)
  (sockets st) (ioRooms st) (timers st) (nextMap st).
Definition set_us st u := mkState (activeSessions st) u (sessionCode st) (sessionCursors st)
  (sockets st) (ioRooms st) (timers st) (nextMap st).
Definition set_code st c := mkState (activeSessions st) (userSockets st) c (sessionCursors st)
  (sockets st) (ioRooms st) (timers st) (nextMap st).
Definition set_curs st c := mkState (activeSessions st) (userSockets st) (sessionCode st) c
  (sockets st) (ioRooms st) (timers st) (nextMap st).
Definition set_socks st k := mkState (activeSessions st) (userSockets st) (sessionCode st)
  (sessionCursors st) k (ioRooms st) (timers st) (nextMap st).
Definition set_rooms st r := mkState (activeSessions st) (userSockets st) (sessionCode st)
  (sessionCursors st) (sockets st) r (timers st) (nextMap st).
Definition set_timers st t := mkState (activeSessions st) (userSockets st) (sessionCode st)
  (sessionCursors st) (sockets st) (ioRooms st) t (nextMap st).
Definition set_next st n := mkState (activeSessions st) (userSockets st) (sessionCode st)
  (sessionCursors st) (sockets st) (ioRooms st) (timers st) n.

Definition sock (st : State) (s : string) : Sock := default fresh_sock (sockets st !! s).

Definition snapshot (st : State) (r : string) : option string := sessionCode st !! r.

Definition welcome : string :=
  "// Welcome to CodeCollab!" ++ nl ++ "// Start typing to collaborate in real-time" ++ nl
  ++ nl ++ "console.log(" ++ dq ++ "Hello, World!" ++ dq ++ ");".

Definition user_name (st : State) (s : string) : option string :=
  u_username <$> sk_userData (sock st s).

(** [mongoose.Types.ObjectId.isValid] on a string (bson): 12 characters,
    or 24 hexadecimal digits. *)
Definition is_hex (c : Ascii.ascii) : bool :=
  let n := Ascii.nat_of_ascii c in
  ((48 <=? n) && (n <=? 57) || (65 <=? n) && (n <=? 70) || (97 <=? n) && (n <=? 102))%nat.
Fixpoint all_hex (s : string) : bool :=
  match s with EmptyString => true | String c r => is_hex c && all_hex r end.
Definition objectid_is_valid (s : string) : bool :=
  (String.length s =? 12)%nat || ((String.length s =? 24)%nat && all_hex s).

(** [socket.on('authenticate', ...)] *)
Definition authenticate (st : State) (s : string) (ud : option User) : State * list Out :=
  let err := (st, [mkOut (ToSocket s) "auth-error" (PMessage "Invalid user data")]) in
  match ud with
  | None => err
  | Some u =>
      if is_empty (u_id u) || is_empty (u_username u) then err
      else (set_socks (set_us st (<[u_id u := s]> (userSockets st)))
              (<[s := mkSock (Some u) (sk_currentSession (sock st s))]> (sockets st)),
            [mkOut (ToSocket s) "auth-success" (PMessage "Authentication successful")])
  end.

(** [socket.on('join-session', ...)] *)
Definition join_session (st : State) (s sessionId : string) (user : option User) (now : Z)
  : State * list Out :=
  match user with
  | None => (st, [mkOut (ToSocket s) "error" (PMessage "Invalid session data")])
  | Some u =>
    if is_empty sessionId then (st, [mkOut (ToSocket s) "error" (PMessage "Invalid session data")])
    else if negb (objectid_is_valid sessionId) then
      (st, [mkOut (ToSocket s) "error" (PMessage "Invalid session ID format")])
    else
      let st1 := set_socks (set_rooms st (io_join (ioRooms st) sessionId s))
                   (<[s := mkSock (sk_userData (sock st s)) (Some sessionId)]> (sockets st)) in
      let st2 := match activeSessions st1 !! sessionId with
                 | Some _ => st1
                 | None =>
                     set_next
                       (set_curs
                          (set_code
                             (set_act st1 (<[sessionId := mkRoomMap (nextMap st1) ∅]>
                                             (activeSessions st1)))
                             (<[sessionId := welcome]> (sessionCode st1)))
                          (<[sessionId := ∅]> (sessionCursors st1)))
                       (S (nextMap st1))
                 end in
      match activeSessions st2 !! sessionId with
      | Some rm =>
          let users := <[s := new_participant u s now (mkPosition 0 0)]> (rm_users rm) in
          let st3 := set_act st2 (<[sessionId := mkRoomMap (rm_inst rm) users]>
                                    (activeSessions st2)) in
          let participants := values users in
          (st3,
           [mkOut (ToSocket s) "code-sync" (PCode (default EmptyString (sessionCode st3 !! sessionId)));
            mkOut (ToSocket s) "session-participants" (PParticipants participants);
            mkOut (ToRoomExcept sessionId s) "user-joined" (PUserJoined u s);
            mkOut (ToRoom sessionId) "participant-count-update" (PCount (length participants))])
      | None => (st2, [])  (* unreachable: st2 has the session *)
      end
  end.

(** [socket.on('code-change', ...)]: stores [code], broadcasts it, and
    marks the sender as typing for 2 s. *)
Definition code_change (st : State) (s sessionId code operation : string) (now : Z)
  : State * list Out :=
  match sk_currentSession (sock st s) with
  | None => (st, [])
  | Some _ =>
    if is_empty sessionId then (st, [])
    else
      let st1 := set_code st (<[sessionId := code]> (sessionCode st)) in
      let o1 := mkOut (ToRoomExcept sessionId s) "code-change"
                  (PCodeChange code operation (or_anonymous (user_name st s)) s) in
      match activeSessions st1 !! sessionId with
      | Some rm =>
          match rm_users rm !! s with
          | Some ud =>
              let ud' := mkParticipant (p_user ud) (p_socketId ud) (p_joinedAt ud) true
                           (p_status ud) (p_cursor ud) (Some now) in
              let st2 := set_act st1 (<[sessionId := mkRoomMap (rm_inst rm)
                                                      (<[s := ud']> (rm_users rm))]>
                                        (activeSessions st1)) in
              let st3 := set_timers st2 (app (timers st2)
                                          [mkTimer (now + 2000) sessionId (rm_inst rm) s]) in
              (st3, [o1; mkOut (ToRoomExcept sessionId s) "typing-status-update"
                           (PTyping s true)])
          | None => (st1, [o1])
          end
      | None => (st1, [o1])
      end
  end.

(** The callback of that [setTimeout]: [sessionUsers] is the captured
    [Map] object.  A [Map] dropped from [activeSessions] was empty when it
    was dropped and is never written again, so [has] fails on it. *)
Definition fire_timer (st : State) (tm : Timer) : State * list Out :=
  match activeSessions st !! tm_room tm with
  | Some rm =>
      if (rm_inst rm =? tm_inst tm)%nat then
        match rm_users rm !! tm_socket tm with
        | Some ud =>
            let ud' := mkParticipant (p_user ud) (p_socketId ud) (p_joinedAt ud) false
                         (p_status ud) (p_cursor ud) (p_lastActivity ud) in
            (set_act st (<[tm_room tm := mkRoomMap (rm_inst rm)
                                          (<[tm_socket tm := ud']> (rm_users rm))]>
                           (activeSessions st)),
             [mkOut (ToRoomExcept (tm_room tm) (tm_socket tm)) "typing-status-update"
                (PTyping (tm_socket tm) false)])
        | None => (st, [])
        end
      else (st, [])
  | None => (st, [])
  end.

Definition fire_acc (acc : State * list Out) (tm : Timer) : State * list Out :=
  let r := fire_timer (fst acc) tm in (fst r, app (snd acc) (snd r)).

(** Run, in order, every pending timer whose deadline is at most [now]. *)
Definition fire_due (st : State) (now : Z) : State * list Out :=
  let due := List.filter (fun tm => Z.leb (tm_deadline tm) now) (timers st) in
  let rest := List.filter (fun tm => negb (Z.leb (tm_deadline tm) now)) (timers st) in
  fold_left fire_acc due (set_timers st rest, []).

(** [socket.on('cursor-position', ...)] *)
Definition cursor_position (st : State) (s sessionId : string) (position : option Position)
  : State * list Out :=
  match position with
  | None => (st, [])
  | Some pos =>
      if is_empty sessionId then (st, [])
      else match sessionCursors st !! sessionId with
           | Some cursors =>
               (set_curs st (<[sessionId := <[s := pos]> cursors]> (sessionCursors st)),
                [mkOut (ToRoomExcept sessionId s) "cursor-update" (PCursor s pos)])
           | None => (st, [])
           end
  end.

(** [socket.on('chat-message', ...)]: broadcast only, nothing stored. *)
Definition chat_message (st : State) (s sessionId message : string) (now : Z) (rnd : Q)
  : State * list Out :=
  match sk_userData (sock st s) with
  | None => (st, [])
  | Some u =>
      if is_empty sessionId || is_empty message then (st, [])
      else
        let m := mkChat (js_now_plus_random now rnd) (js_trim message) None (Some (u_username u)) now s in
        (st, [mkOut (ToRoom sessionId) "chat-message" (PChat m)])
  end.

(** [handleUserLeaveSession(socket, sessionId)] *)
Definition handle_leave (st : State) (s sessionId : string) : State * list Out :=
  match activeSessions st !! sessionId with
  | Some rm =>
      match rm_users rm !! s with
      | Some _ =>
          let users := delete s (rm_users rm) in
          let st1 := set_act st (<[sessionId := mkRoomMap (rm_inst rm) users]> (activeSessions st)) in
          let st2 := set_curs st1 (alter (delete s) sessionId (sessionCursors st1)) in
          let st3 := set_rooms st2 (io_leave (ioRooms st2) sessionId s) in
          let outs := [mkOut (ToRoomExcept sessionId s) "user-left" (PUserLeft s);
                       mkOut (ToRoom sessionId) "participant-count-update"
                         (PCount (length (values users)))] in
          if (size users =? 0)%nat then
            (set_curs (set_code (set_act st3 (delete sessionId (activeSessions st3)))
                                (delete sessionId (sessionCode st3)))
                      (delete sessionId (sessionCursors st3)), outs)
          else (st3, outs)
      | None => (st, [])
      end
  | None => (st, [])
  end.

(** [socket.on('leave-session', sessionId => ...)] *)
Definition leave_session (st : State) (s sessionId : string) : State * list Out :=
  handle_leave st s sessionId.

(** [socket.on('disconnect', ...)]; Socket.IO has already taken the socket
    out of its rooms when the handler runs. *)
Definition disconnect (st : State) (s : string) : State * list Out :=
  let st1 := set_rooms st (io_leave_all (ioRooms st) s) in
  let st2 := match sk_userData (sock st s) with
             | Some u => if is_empty (u_id u) then st1
                         else set_us st1 (delete (u_id u) (userSockets st1))
             | None => st1
             end in
  match sk_currentSession (sock st s) with
  | Some r => if is_empty r then (st2, []) else handle_leave st2 s r
  | None => (st2, [])
  end.

Inductive Event :=
| Authenticate (s : string) (ud : option User)
| Join (s sessionId : string) (user : option User)
| CodeChange (s sessionId code operation : string)
| CursorPos (s sessionId : string) (position : option Position)
| ChatMsg (s sessionId message : string) (rnd : Q)
| LeaveSession (s sessionId : string)
| Disconnect (s : string).

Definition handle (st : State) (now : Z) (e : Event) : State * list Out :=
  match e with
  | Authenticate s ud => authenticate st s ud
  | Join s r u => join_session st s r u now
  | CodeChange s r c op => code_change st s r c op now
  | CursorPos s r p => cursor_position st s r p
  | ChatMsg s r m rnd => chat_message st s r m now rnd
  | LeaveSession s r => leave_session st s r
  | Disconnect s => disconnect st s
  end.

(** One turn of the event loop at time [now]: the timers that are due
    run first, then the handler of the incoming event. *)
Definition step (st : State) (te : Z * Event) : State * list Out :=
  let (now, e) := te in
  let r1 := fire_due st now in
  let r2 := handle (fst r1) now e in
  (fst r2, app (snd r1) (snd r2)).

Fixpoint run (st : State) (es : list (Z * Event)) : State :=
  match es with
  | [] => st
  | e :: es' => run (fst (step st e)) es'
  end.

(** Is socket [s] flagged as typing in session [r]? *)
Definition typing (st : State) (r s : string) : bool :=
  match activeSessions st !! r with
  | Some rm => match rm_users rm !! s with Some p => p_isTyping p | None => false end
  | None => false
  end.

Definition member (st : State) (r s : string) : bool :=
  match activeSessions st !! r with
  | Some rm => match rm_users rm !! s with Some _ => true | None => false end
  | None => false
  end.

End V1.

(* ------------------------------------------------------------------ *)
(** ** Execution: the [execute-code] handler of V1 (lines 303-345) and
    [POST /api/execute/run] of [execute-routes.js] *)

Module Exec.

(** What one [axios.post(`${PISTON_API_URL}/execute`, ...)] yields. *)
Inductive PistonOutcome :=
| POk (stdout stderr compile_stderr : string) (code : Z)
| PHttpError (status : Z)       (* rejected with [error.response.status] *)
| PTimedOut                     (* rejected with [error.code === 'ECONNABORTED'] *)
| PNoResponse.                  (* any other rejection *)

(** The collaborator: the answer to its [n]-th call. *)
Definition Collaborator := nat -> PistonOutcome.

(** The calls started on the collaborator, in order: start time,
    request id, and the session the request came from. *)
Record DState := mkDState {
  calls : list (Z * nat);
  inflight : list (nat * string)
}.

Definition dinit : DState := mkDState [] [].

(** [socket.on('execute-code', ...)] up to its [await]: the handler
    announces the run and starts the collaborator call at once. *)
Definition execute_code (st : DState) (now : Z) (rid : nat) (sessionId : string)
  : DState * list Out :=
  if is_empty sessionId then (st, [])
  else (mkDState (app (calls st) [(now, rid)]) (app (inflight st) [(rid, sessionId)]),
        [mkOut (ToRoom sessionId) "execution-started" (PExec "language")]).

(** The same handler after its [await]: the result, or the error of the
    [catch], goes to the whole session. *)
Definition execute_done (st : DState) (rid : nat) (o : PistonOutcome) : DState * list Out :=
  match find (fun p => (fst p =? rid)%nat) (inflight st) with
  | Some (_, sessionId) =>
      (mkDState (calls st) (List.filter (fun p => negb (fst p =? rid)%nat) (inflight st)),
       [match o with
        | POk _ _ _ _ => mkOut (ToRoom sessionId) "execution-result" (PExec "result")
        | _ => mkOut (ToRoom sessionId) "execution-error" (PExec "Code execution failed")
        end])
  | None => (st, [])
  end.

Inductive DEvent :=
| Submit (now : Z) (rid : nat) (sessionId : string)
| Answer (rid : nat) (o : PistonOutcome).

Definition dstep (st : DState) (e : DEvent) : DState :=
  match e with
  | Submit now rid r => fst (execute_code st now rid r)
  | Answer rid o => fst (execute_done st rid o)
  end.

Definition drun (st : DState) (es : list DEvent) : DState := fold_left dstep es st.

(** The answer of [POST /run] to the client after the collaborator call:
    HTTP status, [success], and [error] (empty on success). *)
Record RunResponse := mkRunResponse { rr_status : Z; rr_success : bool; rr_error : string }.

(** The [catch (pistonError)] message. *)
Definition piston_error_message (o : PistonOutcome) : string :=
  match o with
  | PTimedOut => "Code execution timed out"
  | PHttpError status =>
      if (status =? 400)%Z then "Invalid code or language configuration"
      else if (status =? 429)%Z then "Too many execution requests. Please wait and try again."
      else if (500 <=? status)%Z then "Code execution service temporarily unavailable"
      else "Code execution failed"
  | _ => "Code execution failed"
  end.

(** The answer the inner [try]/[catch (pistonError)] gives for the
    outcome of its [axios.post]. *)
Definition piston_response (o : PistonOutcome) : RunResponse :=
  match o with
  | POk _ _ _ _ => mkRunResponse 200 true EmptyString
  | _ => mkRunResponse 500 false (piston_error_message o)
  end.

(** The control flow of a route handler towards the collaborator: an
    answer, an awaited collaborator call continued with its outcome, or an
    awaited timer of [ms] milliseconds. *)
Inductive RouteProg :=
| RDone (r : RunResponse)
| RCall (k : PistonOutcome -> RouteProg)
| RSleep (ms : Z) (k : RouteProg).

(** Runs a handler against the collaborator, [n] calls having been made
    so far: the answer, the number of calls made, and the time spent
    waiting on timers. *)
Fixpoint interp (collab : Collaborator) (n : nat) (p : RouteProg) : RunResponse * nat * Z :=
  match p with
  | RDone r => (r, n, 0%Z)
  | RCall k => interp collab (S n) (k (collab n))
  | RSleep ms k => let '(r, c, w) := interp collab n k in (r, c, (ms + w)%Z)
  end.

(** [POST /run] from its [axios.post] on (validation, user and session
    checks passed): one awaited call in a [try], whose outcome is answered
    by [piston_response]; there is no loop and no timer. *)
Definition post_run : RouteProg := RCall (fun o => RDone (piston_response o)).

(** The response, and how many collaborator calls were made. *)
Definition run_route (collab : Collaborator) : RunResponse * nat :=
  let '(r, c, _) := interp collab 0 post_run in (r, c).

(** The time [POST /run] spends waiting on timers. *)
Definition run_waits (collab : Collaborator) : Z := snd (interp collab 0 post_run).

End Exec.

(* ------------------------------------------------------------------ *)
(** ** JavaScript string and array functions *)

(** [s.split(sep)] for a one-character separator. *)
Fixpoint js_split (sep : Ascii.ascii) (s : string) : list string :=
  match s with
  | EmptyString => [EmptyString]
  | String c r =>
      let rest := js_split sep r in
      if Ascii.eqb c sep then EmptyString :: rest
      else match rest with
           | [] => [String c EmptyString]
           | h :: t => String c h :: t
           end
  end.

(** [l.join(sep)] *)
Fixpoint js_join (sep : string) (l : list string) : string :=
  match l with
  | [] => EmptyString
  | [x] => x
  | x :: r => x ++ sep ++ js_join sep r
  end.

(** [s.includes(needle)] *)
Fixpoint js_includes (s needle : string) : bool :=
  String.prefix needle s ||
  match s with EmptyString => false | String _ r => js_includes r needle end.

(** [s.substring(a, b)]: both ends clamped to [[0, s.length]], then
    swapped if [a > b]. *)
Definition js_clamp (n : Z) (len : nat) : nat := Z.to_nat (Z.max 0 (Z.min n (Z.of_nat len))).
Definition js_substring (s : string) (a b : Z) : string :=
  let i := js_clamp a (String.length s) in
  let j := js_clamp b (String.length s) in
  String.substring (Nat.min i j) (Nat.max i j - Nat.min i j) s.
(** [s.substring(a)] *)
Definition js_substring_from (s : string) (a : Z) : string :=
  js_substring s a (Z.of_nat (String.length s)).

(** [lines[i]] on an array of strings ([undefined] as [None]). *)
Definition js_index (l : list string) (i : Z) : option string :=
  if (i <? 0)%Z then None else l !! Z.to_nat i.

(** [l.splice(i, 0, x)] *)
Definition splice_ins {A} (i : nat) (x : A) (l : list A) : list A :=
  app (take i l) (x :: drop i l).

Definition nl_char : Ascii.ascii := Ascii.ascii_of_nat 10.

(* ------------------------------------------------------------------ *)
(** ** [CodeState.js]: the second schema of the file (lines 352-702),
    the one with [applyOperation], [setTyping] and [clearTyping].  A
    document is the record of the fields these methods read and write. *)

Module CodeDoc.

(** The [operation] argument of [applyOperation]:
    [{ type, position, content, length, userId }]; an absent [content]
    or [length] is [None]. *)
Record Operation := mkOperation {
  op_type : string;
  op_position : Position;
  op_content : option string;
  op_length : option Z;
  op_userId : string
}.

Record Cursor := mkCursor {
  cu_userId : string;
  cu_username : string;
  cu_position : Position;
  cu_color : string;
  cu_isActive : bool;
  cu_lastUpdate : Z
}.

Record TypingUser := mkTypingUser {
  ty_userId : string;
  ty_username : string;
  ty_position : Position;
  ty_startedAt : Z
}.

Record Doc := mkDoc {
  content : string;
  version : Z;
  hasUnsavedChanges : bool;
  totalOperations : Z;                  (* [metrics.totalOperations] *)
  operations : list (Operation * string);  (* entry and its [operationId] *)
  cursors : list Cursor;
  typingUsers : list TypingUser
}.

Definition set_cursors d c := mkDoc (content d) (version d) (hasUnsavedChanges d)
  (totalOperations d) (operations d) c (typingUsers d).
Definition set_typingUsers d t := mkDoc (content d) (version d) (hasUnsavedChanges d)
  (totalOperations d) (operations d) (cursors d) t.

(** The [switch (type)] of [applyOperation] on [lines]; [None] when it
    throws inside the [try]: [lines[position.line]] is [undefined] (a
    negative line) and [.substring] is read from it, or [content] is
    [undefined] in an [insert] and [.includes] is read from it. *)
Definition edit_lines (op : Operation) (lines : list string) : option (list string) :=
  let p := op_position op in
  let i := Z.to_nat (line p) in
  let in_range := (line p <? Z.of_nat (length lines))%Z in
  if String.eqb (op_type op) "insert" then
    if in_range then
      match js_index lines (line p) with
      | None => None
      | Some ln =>
          let beforeCursor := js_substring ln 0 (column p) in
          let afterCursor := js_substring_from ln (column p) in
          match op_content op with
          | None => None
          | Some c =>
              if js_includes c nl then
                let insertLines := js_split nl_char c in
                let l1 := <[i := beforeCursor ++ nth 0 insertLines EmptyString]> lines in
                let l2 := fold_left (fun acc k => splice_ins (i + k) (nth k insertLines EmptyString) acc)
                            (seq 1 (length insertLines - 1)) l1 in
                if (1 <? length insertLines)%nat then
                  let lastIndex := (i + length insertLines - 1)%nat in
                  Some (<[lastIndex := nth lastIndex l2 EmptyString ++ afterCursor]> l2)
                else Some l2
              else Some (<[i := beforeCursor ++ c ++ afterCursor]> lines)
          end
      end
    else Some lines
  else if String.eqb (op_type op) "delete" then
    if in_range then
      match js_index lines (line p) with
      | None => None
      | Some ln =>
          (* [position.column + length] is [NaN] when [length] is absent,
             and [substring] reads [NaN] as [0] *)
          let e := match op_length op with Some n => (column p + n)%Z | None => 0%Z end in
          Some (<[i := js_substring ln 0 (column p) ++ js_substring_from ln e]> lines)
      end
    else Some lines
  else if String.eqb (op_type op) "replace" then
    if in_range then
      match js_index lines (line p) with
      | None => None
      | Some ln =>
          let e := match op_length op with Some n => (column p + n)%Z | None => 0%Z end in
          (* string concatenation turns an absent [content] into 'undefined' *)
          let c := match op_content op with Some c => c | None => "undefined" end in
          Some (<[i := js_substring ln 0 (column p) ++ c ++ js_substring_from ln e]> lines)
      end
    else Some lines
  else Some lines.

(** [codeState.applyOperation(operation)]: the updated document and the
    returned boolean; [opid] is the generated [operationId]. *)
Definition applyOperation (d : Doc) (op : Operation) (opid : string) : Doc * bool :=
  match edit_lines op (js_split nl_char (content d)) with
  | None => (d, false)
  | Some lines =>
      let ops := (op, opid) :: operations d in
      (mkDoc (js_join nl lines) (version d + 1) true (totalOperations d + 1)
         (if (100 <? length ops)%nat then take 100 ops else ops)
         (cursors d) (typingUsers d), true)
  end.

(** The [linesOfCode] virtual. *)
Definition linesOfCode (d : Doc) : nat :=
  if is_empty (content d) then 0 else length (js_split nl_char (content d)).

(** [cursors.find(...)] and the update of the cursor found. *)
Fixpoint update_first (uid : string) (pos : Position) (t : Z) (l : list Cursor)
  : option (list Cursor) :=
  match l with
  | [] => None
  | c :: r =>
      if String.eqb (cu_userId c) uid
      then Some (mkCursor (cu_userId c) (cu_username c) pos (cu_color c) true t :: r)
      else option_map (cons c) (update_first uid pos t r)
  end.

(** [codeState.updateCursor(userId, username, position, color)]: [t] is
    the time of its [new Date()], [now] the [Date.now()] of the clean-up. *)
Definition updateCursor (d : Doc) (uid uname : string) (pos : Position) (color : string)
    (t now : Z) : Doc :=
  let cs := match update_first uid pos t (cursors d) with
            | Some l => l
            | None => app (cursors d) [mkCursor uid uname pos color true t]
            end in
  set_cursors d (List.filter (fun c => (now - cu_lastUpdate c <? 60000)%Z) cs).

Definition other_user (uid : string) (u : TypingUser) : bool :=
  negb (String.eqb (ty_userId u) uid).

(** [codeState.setTyping(userId, username, position)] at time [t] (its
    [setTimeout] callback is [typing_timeout]). *)
Definition setTyping (d : Doc) (uid uname : string) (pos : Position) (t : Z) : Doc :=
  set_typingUsers d (app (List.filter (other_user uid) (typingUsers d))
                         [mkTypingUser uid uname pos t]).

(** The callback [setTyping] schedules for 3000 ms later, run at [now]. *)
Definition typing_timeout (d : Doc) (uid : string) (now : Z) : Doc :=
  set_typingUsers d (List.filter (fun u => other_user uid u || (now - ty_startedAt u <? 3000)%Z)
                                 (typingUsers d)).

(** [codeState.clearTyping(userId)] *)
Definition clearTyping (d : Doc) (uid : string) : Doc :=
  set_typingUsers d (List.filter (other_user uid) (typingUsers d)).

End CodeDoc.

(* ------------------------------------------------------------------ *)
(** ** [execute-routes.js]: its helpers and routes, and the
    [Session.addExecution] method [POST /run] calls ([Session.js]) *)

Module Routes.

(** A property read [obj[key]] on an object literal: its own keys, then
    the properties every object inherits from [Object.prototype], which
    are functions (or, for [__proto__], the prototype object). *)
Inductive JSVal := JUndefined | JStr (s : string) | JObj.

Definition object_prototype_keys : list string :=
  ["constructor"; "__defineGetter__"; "__defineSetter__"; "hasOwnProperty";
   "__lookupGetter__"; "__lookupSetter__"; "isPrototypeOf"; "propertyIsEnumerable";
   "toString"; "valueOf"; "__proto__"; "toLocaleString"].

Definition is_proto_key (k : string) : bool := existsb (String.eqb k) object_prototype_keys.

Definition js_get (own : list (string * string)) (k : string) : JSVal :=
  match find (fun kv => String.eqb (fst kv) k) own with
  | Some (_, v) => JStr v
  | None => if is_proto_key k then JObj else JUndefined
  end.

Definition truthy (v : JSVal) : bool :=
  match v with JUndefined => false | JStr s => negb (is_empty s) | JObj => true end.

(** [obj[key] || dflt] *)
Definition js_get_or (own : list (string * string)) (k : string) (dflt : JSVal) : JSVal :=
  let v := js_get own k in if truthy v then v else dflt.

Definition languageMapping : list (string * string) :=
  [("javascript", "javascript"); ("python", "python"); ("cpp", "c++"); ("c", "c");
   ("java", "java"); ("go", "go"); ("rust", "rust")].

Definition extensions : list (string * string) :=
  [("javascript", "js"); ("python", "py"); ("cpp", "cpp"); ("c", "c");
   ("java", "java"); ("go", "go"); ("rust", "rs")].

Definition displayNames : list (string * string) :=
  [("javascript", "JavaScript (Node.js)"); ("python", "Python"); ("cpp", "C++"); ("c", "C");
   ("java", "Java"); ("go", "Go"); ("rust", "Rust")].

Definition hello : string := dq ++ "Hello, World!" ++ dq.

Definition templates : list (string * string) :=
  [("javascript", "console.log(" ++ hello ++ ");");
   ("python", "print(" ++ hello ++ ")");
   ("cpp", "#include <iostream>" ++ nl ++ "using namespace std;" ++ nl ++ nl ++
           "int main() {" ++ nl ++ "    cout << " ++ hello ++ " << endl;" ++ nl ++
           "    return 0;" ++ nl ++ "}");
   ("c", "#include <stdio.h>" ++ nl ++ nl ++ "int main() {" ++ nl ++
         "    printf(" ++ dq ++ "Hello, World!" ++ chr 92 ++ "n" ++ dq ++ ");" ++ nl ++
         "    return 0;" ++ nl ++ "}");
   ("java", "public class Main {" ++ nl ++ "    public static void main(String[] args) {" ++ nl ++
            "        System.out.println(" ++ hello ++ ");" ++ nl ++ "    }" ++ nl ++ "}");
   ("go", "package main" ++ nl ++ nl ++ "import " ++ dq ++ "fmt" ++ dq ++ nl ++ nl ++
          "func main() {" ++ nl ++ "    fmt.Println(" ++ hello ++ ")" ++ nl ++ "}");
   ("rust", "fn main() {" ++ nl ++ "    println!(" ++ hello ++ ");" ++ nl ++ "}")].

Definition getFileExtension (language : string) : JSVal :=
  js_get_or extensions language (JStr "txt").
Definition getLanguageDisplayName (language : string) : JSVal :=
  js_get_or displayNames language (JStr language).
Definition getLanguageTemplate (language : string) : JSVal :=
  js_get_or templates language (JStr EmptyString).

(** The validation at the top of [POST /run]: [Some (status, error)] when
    the request is refused there. *)
Definition run_validate (code language : string) : option (Z * string) :=
  if is_empty code || is_empty language then Some (400%Z, "Code and language are required")
  else if negb (truthy (js_get languageMapping language))
  then Some (400%Z, "Unsupported programming language")
  else None.

(** [formatExecutionOutput(output, error, language)]: the two global
    [replace(/<literal>.*\n?/g, '')] of the [javascript] case delete each
    occurrence of the literal with the rest of its line and the line
    feed after it ([.] stops at a line feed or a carriage return). *)
Fixpoint drop_rest_of_line (s : string) : string :=
  match s with
  | EmptyString => EmptyString
  | String c r =>
      if (Ascii.nat_of_ascii c =? 10)%nat then r
      else if (Ascii.nat_of_ascii c =? 13)%nat then s
      else drop_rest_of_line r
  end.

Fixpoint regex_strip_fuel (fuel : nat) (pat s : string) : string :=
  match fuel with
  | O => s
  | S f =>
      match s with
      | EmptyString => EmptyString
      | String c r =>
          if String.prefix pat s
          then regex_strip_fuel f pat
                 (drop_rest_of_line (String.substring (String.length pat) (String.length s) s))
          else String c (regex_strip_fuel f pat r)
      end
  end.

(** Every step consumes at least one character, so [length s] steps
    reach the end of [s]. *)
Definition regex_strip (pat s : string) : string := regex_strip_fuel (String.length s) pat s.

Definition error_header : string := "❌ Error:".

Definition formatExecutionOutput (output error language : string) : string * bool :=
  if negb (is_empty error) then
    let f := error_header ++ nl ++ error in
    let f :=
      if String.eqb language "javascript" then
        regex_strip "at Module._compile" (regex_strip "at Object.<anonymous>" f)
      else if String.eqb language "python" then
        let cleanLines :=
          List.filter (fun l => negb (js_includes l ("File " ++ dq ++ "<stdin>" ++ dq)) &&
                                negb (js_includes l "Traceback (most recent call last)"))
                      (js_split nl_char f) in
        if (0 <? length cleanLines)%nat then js_join nl cleanLines else f
      else f in
    (f, true)
  else if negb (is_empty output) then ("✅ Output:" ++ nl ++ output, false)
  else ("✅ Code executed successfully (no output)", false).

(** [executionResult] of [POST /run] for an answer
    [{ run: { stdout, stderr, code, memory }, compile: { stderr } }]
    (absent fields as [EmptyString] or [0]). *)
Record ExecutionResult := mkExecutionResult {
  er_success : bool;
  er_output : string;
  er_rawOutput : string;
  er_error : string;
  er_executionTime : Z;
  er_memoryUsed : Z;
  er_exitCode : Z;
  er_language : string;
  er_timestamp : Z;
  er_compiledSuccessfully : bool
}.

Definition executionResult (language stdout stderr compile_stderr : string)
    (code memory executionTime now : Z) : ExecutionResult :=
  let output := stdout in
  let error := if negb (is_empty stderr) then stderr else compile_stderr in
  let fo := formatExecutionOutput output error language in
  mkExecutionResult (negb (snd fo)) (fst fo) output error executionTime memory code language now
    (is_empty compile_stderr).

(** [GET /languages]: [runtimes] is the answer of [getLanguageVersions()]
    ([None] for its [null]). *)
Record Runtime := mkRuntime { rt_language : string; rt_version : string }.

Record LangInfo := mkLangInfo {
  li_name : string;
  li_displayName : JSVal;
  li_pistonName : string;
  li_version : string;
  li_available : bool;
  li_fileExtension : JSVal;
  li_template : JSVal
}.

Definition lang_info (rts : list Runtime) (kv : string * string) : LangInfo :=
  let lang := fst kv in
  let pistonLang := snd kv in
  let runtime := find (fun r => String.eqb (rt_language r) pistonLang) rts in
  mkLangInfo lang (getLanguageDisplayName lang) pistonLang
    (match runtime with Some r => rt_version r | None => "Unknown" end)
    (match runtime with Some _ => true | None => false end)
    (getFileExtension lang) (getLanguageTemplate lang).

(** Status, [languages] and [totalSupported]. *)
Definition languages_route (runtimes : option (list Runtime)) : Z * list LangInfo * nat :=
  match runtimes with
  | None => (503%Z, [], 0%nat)
  | Some rts =>
      let supportedLanguages := map (lang_info rts) languageMapping in
      (200%Z, List.filter li_available supportedLanguages,
       length (List.filter li_available supportedLanguages))
  end.

(** An entry of [session.executionHistory] ([executionTime] may be
    absent). *)
Record Execution := mkExecution {
  ex_code : string;
  ex_language : string;
  ex_input : string;
  ex_output : string;
  ex_error : string;
  ex_executionTime : option Z;
  ex_memoryUsed : Z;
  ex_executedBy : string;
  ex_executedAt : Z
}.

(** The fields of a session that [addExecution] reads and writes. *)
Record SessionExec := mkSessionExec {
  executionHistory : list Execution;
  stats_totalExecutions : Z;
  lastActivity : Z
}.

(** [session.addExecution(executionData)] at time [now]. *)
Definition addExecution (s : SessionExec) (data : Execution) (now : Z) : SessionExec :=
  let e := mkExecution (ex_code data) (ex_language data) (ex_input data) (ex_output data)
             (ex_error data) (ex_executionTime data) (ex_memoryUsed data) (ex_executedBy data) now in
  let h := e :: executionHistory s in
  mkSessionExec (if (20 <? length h)%nat then take 20 h else h)
    (stats_totalExecutions s + 1) now.

(** [languageStats]: its own keys in insertion order, with
    [{ count, totalTime }]. *)
Definition LangStats := list (string * (nat * Z)).

Fixpoint bump_own (lang : string) (t : Z) (ls : LangStats) : option LangStats :=
  match ls with
  | [] => None
  | (k, (c, tot)) :: r =>
      if String.eqb k lang then Some ((k, (S c, (tot + t)%Z)) :: r)
      else option_map (cons (k, (c, tot))) (bump_own lang t r)
  end.

(** [if (!languageStats[lang]) languageStats[lang] = {count: 0, totalTime: 0};
     languageStats[lang].count++; languageStats[lang].totalTime += t]:
    for a name inherited from [Object.prototype] the lookup finds the
    inherited value, so the counters are written there and no own key is
    added. *)
Definition bump (lang : string) (t : Z) (ls : LangStats) : LangStats :=
  match bump_own lang t ls with
  | Some l => l
  | None => if is_proto_key lang then ls else app ls [(lang, (1%nat, t))]
  end.

Definition ex_time (e : Execution) : Z := default 0%Z (ex_executionTime e).

Definition stats_acc (uid : string) (acc : nat * Z * LangStats) (e : Execution)
  : nat * Z * LangStats :=
  let '(n, tot, ls) := acc in
  if String.eqb (ex_executedBy e) uid
  then (S n, (tot + ex_time e)%Z, bump (ex_language e) (ex_time e) ls)
  else acc.

Record Stats := mkStats {
  totalExecutions : nat;
  totalExecutionTime : Z;
  averageExecutionTime : Z;
  languageBreakdown : LangStats;
  sessionsParticipated : nat
}.

(** [Math.round(total / n)] for [n > 0]. *)
Definition js_round_div (total : Z) (n : nat) : Z :=
  ((2 * total + Z.of_nat n) / (2 * Z.of_nat n))%Z.

(** [GET /stats] for user [uid], [sessions] being the execution histories
    of the sessions its query returns. *)
Definition stats_route (uid : string) (sessions : list (list Execution)) : Stats :=
  let '(n, tot, ls) := fold_left (fun acc h => fold_left (stats_acc uid) h acc) sessions
                        (0%nat, 0%Z, []) in
  mkStats n tot (if (0 <? n)%nat then js_round_div tot n else 0%Z) ls (length sessions).

(** [validateCodeSyntax(code, language)]: [valid], [errors], [warnings]. *)
Record Validation := mkValidation {
  v_valid : bool;
  v_errors : list string;
  v_warnings : list string
}.

(** One character of the [for (const char of code)] loop, on the
    counters of [(], [[] and [{]. *)
Definition bracket_step (b : Z * Z * Z) (c : Ascii.ascii) : Z * Z * Z :=
  let '(p, s, k) := b in
  let n := Ascii.nat_of_ascii c in
  let p := if (n =? 40)%nat then (p + 1)%Z else p in
  let p := if (n =? 41)%nat then (p - 1)%Z else p in
  let s := if (n =? 91)%nat then (s + 1)%Z else s in
  let s := if (n =? 93)%nat then (s - 1)%Z else s in
  let k := if (n =? 123)%nat then (k + 1)%Z else k in
  let k := if (n =? 125)%nat then (k - 1)%Z else k in
  (p, s, k).

Definition empty_error (code : string) : list string :=
  if is_empty (js_trim code) then ["Code cannot be empty"] else [].

Definition validateCodeSyntax (code language : string) : Validation :=
  if String.eqb language "javascript" then
    let '(p, s, k) := fold_left bracket_step (String.list_ascii_of_string code) (0%Z, 0%Z, 0%Z) in
    let errs := (empty_error code ++
                 (if (p =? 0)%Z then [] else ["Unmatched ( brackets"]) ++
                 (if (s =? 0)%Z then [] else ["Unmatched [ brackets"]) ++
                 (if (k =? 0)%Z then [] else ["Unmatched { brackets"]))%list in
    mkValidation (match errs with [] => true | _ => false end) errs []
  else if String.eqb language "python" then
    let errs := empty_error code in
    mkValidation (match errs with [] => true | _ => false end) errs
      (if js_includes code "print " && negb (js_includes code "print(")
       then ["Consider using print() with parentheses for Python 3"] else [])
  else if String.eqb language "java" then
    let errs := if js_includes code "public class" then []
                else ["Java code must contain a public class"] in
    mkValidation (match errs with [] => true | _ => false end) errs
      (if js_includes code "public static void main" then []
       else ["Java code should contain a main method"])
  else
    let errs := empty_error code in
    mkValidation (match errs with [] => true | _ => false end) errs [].

End Routes.

(* ------------------------------------------------------------------ *)
(** ** The CORS policy of the second version of [server.js]
    ([getCorsOrigins], lines 484-519, and the [origin] callback of
    [cors], lines 552-567) *)

Module Cors.

(** The environment variables read; an unset variable is [None]. *)
Record Env := mkEnv {
  CLIENT_URL : option string;
  ALLOWED_ORIGINS : option string;
  NODE_ENV : option string
}.

(** [if (process.env.X)]: set and not empty. *)
Definition env_set (o : option string) : option string :=
  match o with Some s => if is_empty s then None else Some s | None => None end.

(** [process.env.X === v] *)
Definition env_is (o : option string) (v : string) : bool :=
  match o with Some s => String.eqb s v | None => false end.

(** What [getCorsOrigins()] returns: an array, or [true] / [false]. *)
Inductive CorsOrigins := Origins (l : list string) | Flag (b : bool).

Definition production_origins : list string :=
  ["https://codecollab-frontend.vercel.app"; "https://codecollab-frontend.netlify.app"].
Definition development_origins : list string :=
  ["http://localhost:3000"; "http://127.0.0.1:3000"].

Definition getCorsOrigins (env : Env) : CorsOrigins :=
  let origins := match env_set (CLIENT_URL env) with Some u => [u] | None => [] end in
  let origins := app origins (match env_set (ALLOWED_ORIGINS env) with
                              | Some a => js_split (Ascii.ascii_of_nat 44) a
                              | None => []
                              end) in
  let origins := app origins (if env_is (NODE_ENV env) "production" then production_origins else []) in
  let origins := app origins (if env_is (NODE_ENV env) "development" then development_origins else []) in
  match origins with
  | [] => Flag (env_is (NODE_ENV env) "development")
  | _ => Origins origins
  end.

(** The [origin] callback: [true] for [callback(null, true)], [false]
    for [callback(new Error('Not allowed by CORS'))]. *)
Definition cors_origin (corsOrigins : CorsOrigins) (origin : option string) : bool :=
  match env_set origin with
  | None => true
  | Some o =>
      match corsOrigins with
      | Origins l => existsb (String.eqb o) l
      | Flag b => b
      end
  end.

End Cors.

(* ------------------------------------------------------------------ *)
(** ** V2: the second version of [server.js] (lines 464-1044) *)

Module V2.

(** The entry [cursor-position] stores: [{ ...position, username, timestamp }]. *)
Record CursorV2 := mkCursorV2 { cv_position : Position; cv_username : string; cv_timestamp : Z }.

Inductive Payload2 :=
| QMessage (msg : string)
| QSessionJoined (participants : list User) (currentCode : option string) (sessionId : string)
| QUserJoined (u : User) (socketId : string) (timestamp : Z)
| QCodeChange (code : string) (operation : option string) (from : string) (timestamp : Z)
| QCursorUpdate (socketId : string) (pos : Position) (username : string)
| QUserLeft (u : User) (socketId : string) (timestamp : Z)
| QCount (n : nat)
| QChat (id : Q) (username message : string) (timestamp : Z) (socketId : string).

Record Out2 := mkOut2 { o2_target : Target; o2_event : string; o2_payload : Payload2 }.

(** [activeSessions] maps a session to the map from socket id to the
    [user] object the client sent with [join-session]. *)
Record State := mkState {
  activeSessions : gmap string (gmap string User);
  userSockets : gmap string string;
  sessionCode : gmap string string;
  sessionCursors : gmap string (gmap string CursorV2);
  sockets : gmap string Sock;
  ioRooms : gmap string (gset string)
}.

Definition init : State := mkState ∅ ∅ ∅ ∅ ∅ ∅.

Definition sock (st : State) (s : string) : Sock := default fresh_sock (sockets st !! s).

Definition user_name (st : State) (s : string) : option string :=
  option_map u_username (sk_userData (sock st s)).

(** [socket.on('authenticate', ...)] *)
Definition authenticate (st : State) (s : string) (ud : option User) : State * list Out2 :=
  let err := (st, [mkOut2 (ToSocket s) "auth-error" (QMessage "Invalid user data")]) in
  match ud with
  | None => err
  | Some u =>
      if is_empty (u_id u) || is_empty (u_username u) then err
      else (mkState (activeSessions st) (<[u_id u := s]> (userSockets st)) (sessionCode st)
              (sessionCursors st) (<[s := mkSock (Some u) (sk_currentSession (sock st s))]> (sockets st))
              (ioRooms st),
            [mkOut2 (ToSocket s) "auth-success" (QMessage "Authentication successful")])
  end.

(** [socket.on('join-session', ...)]; the welcome text is the one of V1. *)
Definition join_session (st : State) (s sessionId : string) (user : option User) (now : Z)
  : State * list Out2 :=
  let err := (st, [mkOut2 (ToSocket s) "error" (QMessage "Invalid session data")]) in
  match user with
  | None => err
  | Some u =>
      if is_empty sessionId then err
      else if negb (V1.objectid_is_valid sessionId) then
        (st, [mkOut2 (ToSocket s) "error" (QMessage "Invalid session ID format")])
      else
        let rooms := io_join (ioRooms st) sessionId s in
        let socks := <[s := mkSock (sk_userData (sock st s)) (Some sessionId)]> (sockets st) in
        let '(act, code, curs) :=
          match activeSessions st !! sessionId with
          | Some _ => (activeSessions st, sessionCode st, sessionCursors st)
          | None => (<[sessionId := ∅]> (activeSessions st),
                     <[sessionId := V1.welcome]> (sessionCode st),
                     <[sessionId := ∅]> (sessionCursors st))
          end in
        let sessionUsers := <[s := u]> (default ∅ (act !! sessionId)) in
        (mkState (<[sessionId := sessionUsers]> act) (userSockets st) code curs socks rooms,
         [mkOut2 (ToSocket s) "session-joined"
            (QSessionJoined (map snd (map_to_list sessionUsers)) (code !! sessionId) sessionId);
          mkOut2 (ToRoomExcept sessionId s) "user-joined" (QUserJoined u s now)])
  end.

(** [socket.on('code-change', ...)]: an absent [code] is [None]. *)
Definition code_change (st : State) (s sessionId : string) (code operation : option string)
    (now : Z) : State * list Out2 :=
  match code with
  | None => (st, [])
  | Some c =>
      if is_empty sessionId then (st, [])
      else (mkState (activeSessions st) (userSockets st) (<[sessionId := c]> (sessionCode st))
              (sessionCursors st) (sockets st) (ioRooms st),
            [mkOut2 (ToRoomExcept sessionId s) "code-change"
               (QCodeChange c operation (or_anonymous (user_name st s)) now)])
  end.

(** [socket.on('cursor-position', ...)] *)
Definition cursor_position (st : State) (s sessionId : string) (position : option Position)
    (now : Z) : State * list Out2 :=
  match position with
  | None => (st, [])
  | Some pos =>
      if is_empty sessionId then (st, [])
      else match sessionCursors st !! sessionId with
           | Some cursors =>
               let username := or_anonymous (user_name st s) in
               (mkState (activeSessions st) (userSockets st) (sessionCode st)
                  (<[sessionId := <[s := mkCursorV2 pos username now]> cursors]> (sessionCursors st))
                  (sockets st) (ioRooms st),
                [mkOut2 (ToRoomExcept sessionId s) "cursor-update" (QCursorUpdate s pos username)])
           | None => (st, [])
           end
  end.

(** [socket.on('chat-message', ...)]: broadcast only. *)
Definition chat_message (st : State) (s sessionId message : string) (now : Z) (rnd : Q)
  : State * list Out2 :=
  match sk_userData (sock st s) with
  | None => (st, [])
  | Some u =>
      if is_empty sessionId || is_empty message then (st, [])
      else (st, [mkOut2 (ToRoom sessionId) "chat-message"
                   (QChat (js_now_plus_random now rnd) (u_username u) (js_trim message) now s)])
  end.

(** [handleUserLeaveSession(socket, sessionId)] (lines 949-989). *)
Definition handleUserLeaveSession (st : State) (s sessionId : string) (now : Z)
  : State * list Out2 :=
  match activeSessions st !! sessionId with
  | Some sessionUsers =>
      match sessionUsers !! s with
      | Some userData =>
          let users := delete s sessionUsers in
          let act := <[sessionId := users]> (activeSessions st) in
          let curs := alter (delete s) sessionId (sessionCursors st) in
          let rooms := io_leave (ioRooms st) sessionId s in
          let outs := [mkOut2 (ToRoomExcept sessionId s) "user-left" (QUserLeft userData s now);
                       mkOut2 (ToRoom sessionId) "participant-count-update" (QCount (size users))] in
          if (size users =? 0)%nat then
            (mkState (delete sessionId act) (userSockets st) (delete sessionId (sessionCode st))
               (delete sessionId curs) (sockets st) rooms, outs)
          else (mkState act (userSockets st) (sessionCode st) curs (sockets st) rooms, outs)
      | None => (st, [])
      end
  | None => (st, [])
  end.

(** [socket.on('leave-session', sessionId => ...)] *)
Definition leave_session (st : State) (s sessionId : string) (now : Z) : State * list Out2 :=
  handleUserLeaveSession st s sessionId now.

(** [socket.on('disconnect', ...)]; Socket.IO has already removed the
    socket from its rooms. *)
Definition disconnect (st : State) (s : string) (now : Z) : State * list Out2 :=
  let rooms := io_leave_all (ioRooms st) s in
  let us := match sk_userData (sock st s) with
            | Some u => if is_empty (u_id u) then userSockets st else delete (u_id u) (userSockets st)
            | None => userSockets st
            end in
  let st1 := mkState (activeSessions st) us (sessionCode st) (sessionCursors st) (sockets st) rooms in
  match sk_currentSession (sock st s) with
  | Some r => if is_empty r then (st1, []) else handleUserLeaveSession st1 s r now
  | None => (st1, [])
  end.

End V2.

(* ================================================================== *)
(** * Auxiliary definitions for the properties *)

Definition alice : User := mkUser "u1" "alice".
(** A valid 24-hex-digit session id. *)
Definition R0 : string := "0123456789abcdef01234567".

(** A stored chat message's id lies in [[timestamp, timestamp + 1]]. *)
Definition chat_wf (h : list ChatMessage) : Prop :=
  Forall (fun m => (inject_Z (c_timestamp m) <= c_id m <= inject_Z (c_timestamp m) + 1)%Q) h.
Definition chat_wfb (h : list ChatMessage) : bool :=
  forallb (fun m => Qle_bool (inject_Z (c_timestamp m)) (c_id m) &&
                    Qle_bool (c_id m) (inject_Z (c_timestamp m) + 1)) h.

(** A session whose chat log is full: 100 messages, one per millisecond. *)
Definition chat_full : V3.State :=
  V3.run V3.init (V3.Join "s1" R0 (Some alice) 0 ::
                  map (fun i => V3.ChatMsg "s1" R0 "m" (1000 + Z.of_nat i) (1#2)) (seq 0 100)).

(** [st'] sets no typing flag of [s] in session [r] that [st] did not
    already have, in the same [Map] object. *)
Definition back (st st' : V1.State) (r s : string) : Prop :=
  forall rm' p', V1.activeSessions st' !! r = Some rm' -> V1.rm_users rm' !! s = Some p' ->
    p_isTyping p' = true ->
    exists rm p, V1.activeSessions st !! r = Some rm /\ V1.rm_inst rm = V1.rm_inst rm' /\
                 V1.rm_users rm !! s = Some p /\ p_isTyping p = true.

Definition matches (tm : V1.Timer) (r : string) (i : nat) (s : string) : Prop :=
  V1.tm_room tm = r /\ V1.tm_inst tm = i /\ V1.tm_socket tm = s.

(** Every typing flag of [s] in [r] has a pending timer, due by [D], that
    will clear it. *)
Definition covered (st : V1.State) (r s : string) (D : Z) : Prop :=
  forall rm p, V1.activeSessions st !! r = Some rm -> V1.rm_users rm !! s = Some p ->
    p_isTyping p = true ->
    exists tm, In tm (V1.timers st) /\ matches tm r (V1.rm_inst rm) s /\ (V1.tm_deadline tm <= D)%Z.

Definition not_edit_by (s : string) (e : V1.Event) : Prop :=
  match e with V1.CodeChange s' _ _ _ => s' <> s | _ => True end.

(** [s] has no character [c]. *)
Definition lacks (c : Ascii.ascii) (s : string) : bool :=
  forallb (fun x => negb (Ascii.eqb x c)) (String.list_ascii_of_string s).

(** A collaborator outcome the [execute-code] handler's [catch] takes. *)
Definition piston_failed (o : Exec.PistonOutcome) : bool :=
  match o with Exec.POk _ _ _ _ => false | _ => true end.
(** A collaborator answer event (no new request). *)
Definition is_answer (e : Exec.DEvent) : bool :=
  match e with Exec.Answer _ _ => true | Exec.Submit _ _ _ => false end.

(** Number of occurrences of [c] in [s]. *)
Definition count_char (c : Ascii.ascii) (s : string) : nat :=
  length (List.filter (fun x => Ascii.eqb x c) (String.list_ascii_of_string s)).

(** Component-wise sum of bracket counters. *)
Definition badd (x y : Z * Z * Z) : Z * Z * Z :=
  let '(a, b, c) := x in let '(d, e, f) := y in ((a + d)%Z, (b + e)%Z, (c + f)%Z).

(** Totals of the per-language breakdown of [GET /stats]. *)
Definition sum_counts (ls : Routes.LangStats) : nat :=
  fold_right (fun kv acc => (fst (snd kv) + acc)%nat) 0%nat ls.
Definition sum_times (ls : Routes.LangStats) : Z :=
  fold_right (fun kv acc => (snd (snd kv) + acc)%Z) 0%Z ls.
Definition zsum (l : list Z) : Z := fold_right Z.add 0%Z l.
Definition by_user (uid : string) (e : Routes.Execution) : bool :=
  String.eqb (Routes.ex_executedBy e) uid.
(** The executions of [uid] that land in the breakdown. *)
Definition counted (uid : string) (e : Routes.Execution) : bool :=
  by_user uid e && negb (Routes.is_proto_key (Routes.ex_language e)).
(** Distinct own keys, none of them a name of [Object.prototype]. *)
Definition stats_inv (ls : Routes.LangStats) : Prop :=
  NoDup (map fst ls) /\ Forall (fun k => Routes.is_proto_key k = false) (map fst ls).

(** One member in a session. *)
Definition one_member : V2.State :=
  fst (V2.join_session V2.init "s1" "0123456789ab" (Some (mkUser "u1" "Ann")) 0).

(* ================================================================== *)
(** * Properties *)

Lemma V3_run_app (st : V3.State) (a b : list V3.Event) :
  V3.run st (a ++ b) = V3.run (V3.run st a) b.
Proof. revert st. induction a as [|e a IH]; intros st; simpl; [done | apply IH]. Qed.

(** ** C1 *)

(** C1: after any history [evs], a [code-change] from a socket that is in
    a session overwrites the stored code of the named session with the
    submitted content, so the snapshot is exactly that content; the
    operation descriptor has no influence on the resulting state. *)
Theorem V3_applyEdit_last_write_wins (st : V3.State) (evs : list V3.Event)
    (s r c op op' : string) :
  is_empty r = false ->
  sk_currentSession (V3.sock (V3.run st evs) s) <> None ->
  V3.snapshot (V3.run st (evs ++ [V3.CodeChange s r c op])) r = Some c /\
  V3.run st (evs ++ [V3.CodeChange s r c op]) = V3.run st (evs ++ [V3.CodeChange s r c op']).
Proof.
  intros Hr Hs. rewrite !V3_run_app. simpl.
  unfold V3.code_change.
  destruct (sk_currentSession (V3.sock (V3.run st evs) s)) as [cur|]; [|congruence].
  rewrite Hr. simpl. split; [|done].
  unfold V3.snapshot. simpl. apply lookup_insert_eq.
Qed.

Lemma V3_applyEdit_last_write_wins_witness :
  (is_empty R0 = false /\
   sk_currentSession (V3.sock (V3.run V3.init [V3.Join "s1" R0 (Some alice) 0;
                                              V3.CodeChange "s1" R0 "a=1" "insert"]) "s1") <> None) /\
  (V3.snapshot (V3.run V3.init ([V3.Join "s1" R0 (Some alice) 0; V3.CodeChange "s1" R0 "a=1" "insert"]
                                 ++ [V3.CodeChange "s1" R0 "b=2" "delete"])) R0 = Some "b=2" /\
   V3.run V3.init ([V3.Join "s1" R0 (Some alice) 0; V3.CodeChange "s1" R0 "a=1" "insert"]
                    ++ [V3.CodeChange "s1" R0 "b=2" "delete"]) =
   V3.run V3.init ([V3.Join "s1" R0 (Some alice) 0; V3.CodeChange "s1" R0 "a=1" "insert"]
                    ++ [V3.CodeChange "s1" R0 "b=2" "replace"])).
Proof.
  split; [split; [reflexivity | simpl; discriminate] |].
  apply V3_applyEdit_last_write_wins; [reflexivity | simpl; discriminate].
Defined.

(** ** C6 *)

(** C6: a [code-change] is broadcast with [socket.to(sessionId)]: when the
    sender is in a session and names a session, exactly one [code-change]
    message carrying the content is emitted, and it reaches exactly the
    sockets of that Socket.IO room other than the sender; no emission of
    the handler ever reaches the sender. *)
Theorem V3_edit_fanout_excludes_sender (st : V3.State) (s r c op : string) :
  is_empty r = false ->
  sk_currentSession (V3.sock st s) <> None ->
  (exists from,
     snd (V3.code_change st s r c op) =
       [mkOut (ToRoomExcept r s) "code-change"
          (PCodeChange c (if is_empty op then "edit" else op) from s)]) /\
  (forall x, x ∈ recipients (V3.ioRooms (fst (V3.code_change st s r c op))) (ToRoomExcept r s)
             <-> x ∈ default ∅ (V3.ioRooms st !! r) /\ x <> s) /\
  (forall o, In o (snd (V3.code_change st s r c op)) ->
             s ∉ recipients (V3.ioRooms (fst (V3.code_change st s r c op))) (o_target o)).
Proof.
  intros Hr Hs. unfold V3.code_change.
  destruct (sk_currentSession (V3.sock st s)) as [cur|]; [|congruence].
  rewrite Hr. simpl. split; [eauto|]. split.
  - intros x. rewrite elem_of_difference, elem_of_singleton. tauto.
  - intros o [<-|[]]. simpl. set_solver.
Qed.

Lemma V3_edit_fanout_excludes_sender_witness :
  let st := V3.run V3.init [V3.Join "A" R0 (Some alice) 0; V3.Join "B" R0 (Some alice) 0] in
  (is_empty R0 = false /\ sk_currentSession (V3.sock st "A") <> None) /\
  ((exists from,
     snd (V3.code_change st "A" R0 "print(1)" EmptyString) =
       [mkOut (ToRoomExcept R0 "A") "code-change" (PCodeChange "print(1)" "edit" from "A")]) /\
   (forall x, x ∈ recipients (V3.ioRooms (fst (V3.code_change st "A" R0 "print(1)" EmptyString)))
                 (ToRoomExcept R0 "A")
              <-> x ∈ default ∅ (V3.ioRooms st !! R0) /\ x <> "A") /\
   (forall o, In o (snd (V3.code_change st "A" R0 "print(1)" EmptyString)) ->
      "A" ∉ recipients (V3.ioRooms (fst (V3.code_change st "A" R0 "print(1)" EmptyString)))
              (o_target o))).
Proof.
  intros st. split; [split; [reflexivity | vm_compute; discriminate] |].
  apply (V3_edit_fanout_excludes_sender st "A" R0 "print(1)" EmptyString);
    [reflexivity | vm_compute; discriminate].
Defined.

(** ** C2 *)

(** C2 (failing input): in the last version a session whose only
    participant disconnects, or leaves with [leave-session], stays in
    [activeSessions] with no participant, together with its code, cursors
    and chat. *)
Theorem V3_empty_session_survives :
  let st1 := V3.run V3.init [V3.Join "s1" R0 (Some alice) 0; V3.Disconnect "s1"] in
  let st2 := V3.run V3.init [V3.Join "s1" R0 (Some alice) 0; V3.LeaveSession "s1" R0] in
  V3.activeSessions st1 !! R0 = Some ∅ /\ V3.sessionCode st1 !! R0 = Some V3.welcome /\
  V3.sessionCursors st1 !! R0 = Some ∅ /\ V3.sessionChats st1 !! R0 = Some [] /\
  V3.activeSessions st2 !! R0 = Some ∅ /\ V3.sessionCode st2 !! R0 = Some V3.welcome.
Proof. vm_compute. repeat split. Qed.

(** ** C5 *)

Lemma V3_chat_push_shape (l : list ChatMessage) (m : ChatMessage) :
  exists k, V3.chat_push l m = (drop k l ++ [m])%list /\
            (length l < 100 -> k = 0)%nat /\ (length l = 100 -> k = 1)%nat.
Proof.
  unfold V3.chat_push. rewrite length_app. simpl.
  destruct (Nat.ltb_spec 100 (length l + 1)) as [Hlt|Hge].
  - exists (length l + 1 - 100)%nat. rewrite drop_app_le by lia.
    split; [done | lia].
  - exists 0%nat. rewrite drop_0. split; [done | lia].
Qed.

Lemma V3_chat_push_length (l : list ChatMessage) (m : ChatMessage) :
  (length (V3.chat_push l m) <= 100)%nat.
Proof.
  unfold V3.chat_push. rewrite length_app. simpl.
  destruct (Nat.ltb_spec 100 (length l + 1)).
  - rewrite length_drop, length_app. simpl. lia.
  - rewrite length_app. simpl. lia.
Qed.

Lemma js_now_plus_random_bounds (now : Z) (rnd : Q) :
  (1 <= now < 2 ^ 53)%Z -> (0 <= rnd < 1)%Q ->
  (inject_Z now <= js_now_plus_random now rnd <= inject_Z now + 1)%Q.
Proof.
  intros [Hn1 Hn2] [Hr0 Hr1]. unfold js_now_plus_random.
  destruct (Z.leb_spec now 0) as [Hle|_]; [lia|].
  assert (He : (Z.log2 now < 53)%Z) by (apply Z.log2_lt_pow2; lia).
  assert (He0 : (0 <= Z.log2 now)%Z) by apply Z.log2_nonneg.
  cbv zeta.
  replace (Z.max 0 (Z.log2 now - 52)) with 0%Z by lia.
  replace (Z.max 0 (52 - Z.log2 now)) with (52 - Z.log2 now)%Z by lia.
  rewrite Z.pow_0_r, !Z.mul_1_r.
  set (P := (2 ^ (52 - Z.log2 now))%Z).
  assert (HP : (0 < P)%Z) by (apply Z.pow_pos_nonneg; lia).
  destruct rnd as [n d]. unfold Qle, Qlt in *. cbn [Qnum Qden] in *.
  set (D := Zpos d) in *.
  assert (HD : (0 < D)%Z) by (unfold D; lia).
  set (q := (((now * D + n) * P) / D)%Z).
  assert (Hlo : (now * P <= q)%Z).
  { apply Z.div_le_lower_bound; [lia|]. nia. }
  assert (Hhi : (q < (now + 1) * P)%Z).
  { apply Z.div_lt_upper_bound; [lia|]. nia. }
  unfold inject_Z, Qplus. cbn [Qnum Qden]. rewrite Z2Pos.id by lia.
  match goal with |- context [if ?b then _ else _] => destruct b end; lia.
Qed.

(** Decides [chat_wf] on a concrete log. *)
Lemma chat_wfb_spec (h : list ChatMessage) : chat_wfb h = true -> chat_wf h.
Proof.
  unfold chat_wfb, chat_wf. rewrite forallb_forall. intros H. apply List.Forall_forall.
  intros m Hm. specialize (H m Hm). apply andb_prop in H as [H1 H2].
  apply Qle_bool_iff in H1, H2. split; assumption.
Qed.

(** C5 (counterexample): two messages sent in the same millisecond, the
    second drawing a smaller [Math.random()], get decreasing ids; and a
    message whose [Math.random()] is close to 1 gets, once rounded to a
    double, the same id as the message of the next millisecond. *)
Theorem V3_chat_ids_not_increasing :
  (exists m1 m2,
    V3.sessionChats (V3.run V3.init [V3.Join "s1" R0 (Some alice) 0;
                                     V3.ChatMsg "s1" R0 "hi" 1000 (1#2);
                                     V3.ChatMsg "s1" R0 "there" 1000 (1#5)]) !! R0 = Some [m1; m2] /\
    (c_id m2 < c_id m1)%Q) /\
  (exists m1 m2,
    V3.sessionChats (V3.run V3.init [V3.Join "s1" R0 (Some alice) 0;
                                     V3.ChatMsg "s1" R0 "hi" 1760000000000 (9999#10000);
                                     V3.ChatMsg "s1" R0 "there" 1760000000001 0]) !! R0
      = Some [m1; m2] /\
    (c_timestamp m1 < c_timestamp m2)%Z /\ c_id m2 = c_id m1).
Proof.
  split; do 2 eexists; (split; [vm_compute; reflexivity|]).
  - vm_compute. reflexivity.
  - split; vm_compute; reflexivity.
Qed.

(** C5 (amended): a stored [chat-message] is appended at the end of the
    session's log, the oldest entries are evicted so that the log holds at
    most 100 messages (appending to a full log of 100 drops exactly the
    oldest), and its id, [Date.now() + Math.random()] rounded to a double,
    lies between [Date.now()] and [Date.now() + 1], so that it is at least
    the id of every stored message sent at an earlier millisecond. *)
Theorem V3_chat_log_bounded (st : V3.State) (s r msg : string) (now : Z) (rnd : Q)
    (h : list ChatMessage) :
  is_empty r = false -> is_empty msg = false ->
  sk_currentSession (V3.sock st s) <> None ->
  V3.sessionChats st !! r = Some h ->
  (1 <= now < 2 ^ 53)%Z -> (0 <= rnd < 1)%Q -> chat_wf h ->
  exists m k h',
    V3.sessionChats (fst (V3.chat_message st s r msg now rnd)) !! r = Some h' /\
    h' = (drop k h ++ [m])%list /\ (length h' <= 100)%nat /\
    (length h < 100 -> k = 0)%nat /\ (length h = 100 -> k = 1)%nat /\
    c_id m = js_now_plus_random now rnd /\ c_timestamp m = now /\ chat_wf h' /\
    (forall m', In m' h -> (c_timestamp m' < now)%Z -> (c_id m' <= c_id m)%Q).
Proof.
  intros Hr Hm Hs Hh Hnow Hrnd Hwf. unfold V3.chat_message.
  destruct (sk_currentSession (V3.sock st s)) as [cur|]; [|congruence].
  rewrite Hr, Hm. simpl. rewrite Hh. simpl.
  set (m := mkChat (js_now_plus_random now rnd) (js_trim msg) (V3.user_id st s) (V3.user_name st s) now s).
  destruct (V3_chat_push_shape h m) as (k & Hk & Hk1 & Hk2).
  pose proof (js_now_plus_random_bounds now rnd Hnow Hrnd) as [Hlo Hhi].
  exists m, k, (V3.chat_push h m). rewrite lookup_insert_eq.
  split; [done|]. split; [done|]. split; [apply V3_chat_push_length|].
  split; [done|]. split; [done|]. split; [done|]. split; [done|]. split.
  - rewrite Hk. unfold chat_wf. apply Forall_app. split.
    + by apply Forall_drop.
    + constructor; [|constructor]. simpl. split; assumption.
  - intros m' Hin Hts. unfold chat_wf in Hwf. rewrite Forall_forall in Hwf.
    destruct (Hwf m' (proj2 (list_elem_of_In h m') Hin)) as [_ Hup]. simpl.
    assert (inject_Z (c_timestamp m') + 1 <= inject_Z now)%Q.
    { replace 1%Q with (inject_Z 1) by reflexivity. rewrite <- inject_Z_plus.
      rewrite <- Zle_Qle. lia. }
    lra.
Qed.

Lemma V3_chat_log_bounded_witness :
  let h := default [] (V3.sessionChats chat_full !! R0) in
  (length h = 100%nat /\
   is_empty R0 = false /\ is_empty "hi" = false /\
   sk_currentSession (V3.sock chat_full "s1") <> None /\
   V3.sessionChats chat_full !! R0 = Some h /\ (1 <= 1760000000000 < 2 ^ 53)%Z /\
   (0 <= 9999#10000 < 1)%Q /\ chat_wf h) /\
  exists m k h',
    V3.sessionChats (fst (V3.chat_message chat_full "s1" R0 "hi" 1760000000000 (9999#10000))) !! R0
      = Some h' /\
    h' = (drop k h ++ [m])%list /\ (length h' <= 100)%nat /\
    (length h < 100 -> k = 0)%nat /\ (length h = 100 -> k = 1)%nat /\
    c_id m = js_now_plus_random 1760000000000 (9999#10000) /\ c_timestamp m = 1760000000000%Z /\
    chat_wf h' /\
    (forall m', In m' h -> (c_timestamp m' < 1760000000000)%Z -> (c_id m' <= c_id m)%Q).
Proof.
  intros h.
  assert (Hh : V3.sessionChats chat_full !! R0 = Some h) by (vm_compute; reflexivity).
  assert (Hs : sk_currentSession (V3.sock chat_full "s1") <> None) by (vm_compute; discriminate).
  assert (Hn : (1 <= 1760000000000 < 2 ^ 53)%Z) by (split; [intro Hc; discriminate Hc | reflexivity]).
  assert (Hq : (0 <= 9999#10000 < 1)%Q) by (split; lra).
  assert (Hw : chat_wf h) by (apply chat_wfb_spec; vm_compute; reflexivity).
  split.
  { split; [vm_compute; reflexivity|]. split; [reflexivity|]. split; [reflexivity|].
    split; [exact Hs|]. split; [exact Hh|]. split; [exact Hn|]. split; [exact Hq | exact Hw]. }
  exact (V3_chat_log_bounded chat_full "s1" R0 "hi" 1760000000000 (9999#10000) h
           eq_refl eq_refl Hs Hh Hn Hq Hw).
Defined.

(** ** C3 *)

(** C3 (counterexample): two [execute-code] requests from different
    sessions arriving at the same instant start two collaborator calls at
    that instant, both in flight together. *)
Theorem Exec_simultaneous_calls :
  let st := Exec.drun Exec.dinit [Exec.Submit 0 1 "A"; Exec.Submit 0 2 "B"] in
  Exec.calls st = [(0%Z, 1%nat); (0%Z, 2%nat)] /\ length (Exec.inflight st) = 2%nat /\
  ~ (0 - 0 >= 300)%Z.
Proof. simpl. split; [reflexivity | split; [reflexivity | lia]]. Qed.

(** C3 (amended): the [execute-code] handler neither queues nor paces:
    every request that names a session starts its collaborator call at its
    own arrival time, whatever calls are already started or in flight. *)
Theorem Exec_no_pacing (st : Exec.DState) (subs : list (Z * nat * string)) :
  Forall (fun x => is_empty (snd x) = false) subs ->
  Exec.calls (Exec.drun st (map (fun x => Exec.Submit (fst (fst x)) (snd (fst x)) (snd x)) subs))
    = (Exec.calls st ++ map fst subs)%list /\
  Exec.inflight (Exec.drun st (map (fun x => Exec.Submit (fst (fst x)) (snd (fst x)) (snd x)) subs))
    = (Exec.inflight st ++ map (fun x => (snd (fst x), snd x)) subs)%list.
Proof.
  revert st. induction subs as [|[[t rid] r] subs IH]; intros st Hall; simpl.
  - rewrite !app_nil_r. done.
  - inversion Hall as [|? ? Hr Hrest]; subst. simpl in Hr.
    unfold Exec.drun in *. cbn [map fold_left fst snd].
    set (st' := fst (Exec.execute_code st t rid r)).
    destruct (IH st' Hrest) as [H1 H2]. rewrite H1, H2.
    unfold st', Exec.execute_code. rewrite Hr. simpl.
    rewrite <- !app_assoc. done.
Qed.

Lemma Exec_no_pacing_witness :
  Forall (fun x => is_empty (snd x) = false) [(0%Z, 1%nat, "A"); (0%Z, 2%nat, "B")] /\
  Exec.calls (Exec.drun Exec.dinit
      (map (fun x => Exec.Submit (fst (fst x)) (snd (fst x)) (snd x))
           [(0%Z, 1%nat, "A"); (0%Z, 2%nat, "B")]))
    = (Exec.calls Exec.dinit ++ map fst [(0%Z, 1%nat, "A"); (0%Z, 2%nat, "B")])%list /\
  Exec.inflight (Exec.drun Exec.dinit
      (map (fun x => Exec.Submit (fst (fst x)) (snd (fst x)) (snd x))
           [(0%Z, 1%nat, "A"); (0%Z, 2%nat, "B")]))
    = (Exec.inflight Exec.dinit ++ map (fun x => (snd (fst x), snd x))
         [(0%Z, 1%nat, "A"); (0%Z, 2%nat, "B")])%list.
Proof.
  assert (H : Forall (fun x : Z * nat * string => is_empty (snd x) = false)
                [(0%Z, 1%nat, "A"); (0%Z, 2%nat, "B")]) by (repeat constructor).
  split; [exact H | apply (Exec_no_pacing Exec.dinit _ H)].
Defined.

(** ** C4 *)

Lemma find_none_filter (rid : nat) (l : list (nat * string)) :
  find (fun p => (fst p =? rid)%nat) (List.filter (fun p => negb (fst p =? rid)%nat) l) = None.
Proof.
  induction l as [|[k v] l IH]; [reflexivity|]. simpl.
  destruct (k =? rid)%nat eqn:E; simpl; [exact IH|]. rewrite E. exact IH.
Qed.

(** C4 (counterexample): a collaborator that answers 429 once and then
    succeeds; [POST /run] makes a single call and answers with a failure. *)
Theorem Exec_rate_limit_not_retried :
  Exec.run_route (fun n => match n with
                           | O => Exec.PHttpError 429
                           | S _ => Exec.POk "1" EmptyString EmptyString 0
                           end)
  = (Exec.mkRunResponse 500 false "Too many execution requests. Please wait and try again.", 1%nat).
Proof. reflexivity. Qed.

(** C4 (amended): [POST /run] calls the collaborator exactly once and
    never waits or retries; when that call is answered with 429 the caller
    at once receives a failed result (HTTP 500, [success: false], message
    "Too many execution requests. Please wait and try again."); the
    [execute-code] handler likewise reports any failed call to the whole
    session as [execution-error], and neither that answer nor any later
    answer starts another collaborator call. *)
Theorem Exec_rate_limit_fails_at_once (collab : Exec.Collaborator) (st : Exec.DState)
    (rid : nat) (r : string) :
  collab 0%nat = Exec.PHttpError 429 ->
  find (fun p => (fst p =? rid)%nat) (Exec.inflight st) = Some (rid, r) ->
  Exec.run_route collab =
    (Exec.mkRunResponse 500 false "Too many execution requests. Please wait and try again.", 1%nat) /\
  (forall c, snd (Exec.run_route c) = 1%nat /\ Exec.run_waits c = 0%Z /\
             fst (Exec.run_route c) = Exec.piston_response (c 0%nat)) /\
  (forall o, piston_failed o = true ->
     snd (Exec.execute_done st rid o) =
       [mkOut (ToRoom r) "execution-error" (PExec "Code execution failed")] /\
     Exec.calls (fst (Exec.execute_done st rid o)) = Exec.calls st /\
     find (fun p => (fst p =? rid)%nat) (Exec.inflight (fst (Exec.execute_done st rid o))) = None) /\
  (forall st' es, Forall (fun e => is_answer e = true) es ->
     Exec.calls (Exec.drun st' es) = Exec.calls st').
Proof.
  intros Hc Hf. split; [|split; [|split]].
  - unfold Exec.run_route. simpl. rewrite Hc. reflexivity.
  - intros c. unfold Exec.run_route, Exec.run_waits. simpl. split; [|split]; reflexivity.
  - intros o Ho. unfold Exec.execute_done. rewrite Hf. simpl.
    split; [destruct o; [discriminate|reflexivity..]|]. split; [reflexivity|].
    apply find_none_filter.
  - intros st' es Hes. revert st'. induction es as [|e es IH]; intros st'; [reflexivity|].
    inversion Hes as [|? ? He Hrest]; subst.
    unfold Exec.drun in *. cbn [fold_left]. rewrite IH by exact Hrest.
    destruct e as [? ? ?|rid' o']; [discriminate|]. cbn [Exec.dstep].
    unfold Exec.execute_done. destruct (find _ (Exec.inflight st')) as [[? ?]|]; reflexivity.
Qed.

Lemma Exec_rate_limit_fails_at_once_witness :
  (Exec.PHttpError 429 = Exec.PHttpError 429 /\
   find (fun p => (fst p =? 1)%nat) (Exec.inflight (fst (Exec.execute_code Exec.dinit 0 1 R0)))
     = Some (1%nat, R0)) /\
  (Exec.run_route (fun _ => Exec.PHttpError 429) =
    (Exec.mkRunResponse 500 false "Too many execution requests. Please wait and try again.", 1%nat) /\
  (forall c, snd (Exec.run_route c) = 1%nat /\ Exec.run_waits c = 0%Z /\
             fst (Exec.run_route c) = Exec.piston_response (c 0%nat)) /\
  (forall o, piston_failed o = true ->
     snd (Exec.execute_done (fst (Exec.execute_code Exec.dinit 0 1 R0)) 1 o) =
       [mkOut (ToRoom R0) "execution-error" (PExec "Code execution failed")] /\
     Exec.calls (fst (Exec.execute_done (fst (Exec.execute_code Exec.dinit 0 1 R0)) 1 o)) =
       Exec.calls (fst (Exec.execute_code Exec.dinit 0 1 R0)) /\
     find (fun p => (fst p =? 1)%nat)
       (Exec.inflight (fst (Exec.execute_done (fst (Exec.execute_code Exec.dinit 0 1 R0)) 1 o)))
       = None) /\
  (forall st' es, Forall (fun e => is_answer e = true) es ->
     Exec.calls (Exec.drun st' es) = Exec.calls st')) /\
  Exec.calls (Exec.drun (fst (Exec.execute_code Exec.dinit 0 1 R0))
                [Exec.Answer 1 (Exec.PHttpError 429); Exec.Answer 1 Exec.PTimedOut]) = [(0%Z, 1%nat)].
Proof.
  assert (Hf : find (fun p => (fst p =? 1)%nat) (Exec.inflight (fst (Exec.execute_code Exec.dinit 0 1 R0)))
                 = Some (1%nat, R0)) by reflexivity.
  pose proof (Exec_rate_limit_fails_at_once (fun _ => Exec.PHttpError 429)
                (fst (Exec.execute_code Exec.dinit 0 1 R0)) 1 R0 eq_refl Hf) as H.
  split; [split; [reflexivity | exact Hf]|]. split; [exact H|].
  destruct H as (_ & _ & _ & H).
  rewrite (H _ [Exec.Answer 1 (Exec.PHttpError 429); Exec.Answer 1 Exec.PTimedOut])
    by (repeat constructor).
  reflexivity.
Defined.

(** ** C10 *)

(** C10: in the last version, the [join-session] that finds no entry for
    its (non-empty) session id creates the session with the non-empty
    welcome template, which starts with "// Welcome to CodeCollab!", and
    sends exactly that template to the joiner as [code-sync]; the first
    version does the same for every session id it accepts (a valid
    ObjectId; it refuses the others before creating anything). *)
Theorem first_join_sends_welcome (st1 : V1.State) (st3 : V3.State) (s r1 r3 : string) (u : User)
    (now : Z) :
  is_empty r3 = false -> V3.activeSessions st3 !! r3 = None ->
  is_empty r1 = false -> V1.objectid_is_valid r1 = true -> V1.activeSessions st1 !! r1 = None ->
  V3.snapshot (fst (V3.join_session st3 s r3 (Some u) now)) r3 = Some V3.welcome /\
  hd_error (snd (V3.join_session st3 s r3 (Some u) now)) =
    Some (mkOut (ToSocket s) "code-sync" (PCode V3.welcome)) /\
  V1.snapshot (fst (V1.join_session st1 s r1 (Some u) now)) r1 = Some V1.welcome /\
  hd_error (snd (V1.join_session st1 s r1 (Some u) now)) =
    Some (mkOut (ToSocket s) "code-sync" (PCode V1.welcome)) /\
  String.prefix "// Welcome to CodeCollab!" V1.welcome = true /\
  String.prefix "// Welcome to CodeCollab!" V3.welcome = true /\
  V1.welcome <> EmptyString /\ V3.welcome <> EmptyString.
Proof.
  intros Hr3 H3 Hr1 Hv H1.
  unfold V1.join_session, V3.join_session. rewrite Hr1, Hr3, Hv. simpl.
  rewrite H1, H3. simpl. rewrite !lookup_insert_eq. simpl.
  unfold V1.snapshot, V3.snapshot. simpl. rewrite !lookup_insert_eq.
  repeat split; try reflexivity; discriminate.
Qed.

Lemma first_join_sends_welcome_witness :
  (is_empty "R7" = false /\ V3.activeSessions V3.init !! "R7" = None /\
   is_empty R0 = false /\ V1.objectid_is_valid R0 = true /\
   V1.activeSessions V1.init !! R0 = None) /\
  (V3.snapshot (fst (V3.join_session V3.init "s1" "R7" (Some alice) 0)) "R7" = Some V3.welcome /\
  hd_error (snd (V3.join_session V3.init "s1" "R7" (Some alice) 0)) =
    Some (mkOut (ToSocket "s1") "code-sync" (PCode V3.welcome)) /\
  V1.snapshot (fst (V1.join_session V1.init "s1" R0 (Some alice) 0)) R0 = Some V1.welcome /\
  hd_error (snd (V1.join_session V1.init "s1" R0 (Some alice) 0)) =
    Some (mkOut (ToSocket "s1") "code-sync" (PCode V1.welcome)) /\
  String.prefix "// Welcome to CodeCollab!" V1.welcome = true /\
  String.prefix "// Welcome to CodeCollab!" V3.welcome = true /\
  V1.welcome <> EmptyString /\ V3.welcome <> EmptyString).
Proof.
  split; [repeat split; reflexivity |].
  apply first_join_sends_welcome; reflexivity.
Defined.

(** ** C7 *)

Lemma V1_handle_leave_not_member (st : V1.State) (s r : string) :
  V1.member st r s = false -> V1.handle_leave st s r = (st, []).
Proof.
  unfold V1.member, V1.handle_leave.
  destruct (V1.activeSessions st !! r) as [rm|]; [|done].
  destruct (V1.rm_users rm !! s); done.
Qed.

Lemma V1_handle_leave_removes (st : V1.State) (s r : string) :
  V1.member (fst (V1.handle_leave st s r)) r s = false.
Proof.
  unfold V1.member, V1.handle_leave.
  destruct (V1.activeSessions st !! r) as [rm|] eqn:Ha; [|simpl; rewrite ?Ha; done].
  destruct (V1.rm_users rm !! s) eqn:Hu; [|simpl; rewrite ?Ha, ?Hu; done].
  destruct (Nat.eqb (size (delete s (V1.rm_users rm))) 0); simpl.
  - by rewrite lookup_delete_eq.
  - rewrite lookup_insert_eq. simpl. by rewrite lookup_delete_eq.
Qed.

Lemma V1_handle_leave_other (st : V1.State) (s r r' : string) :
  r' <> r -> V1.activeSessions (fst (V1.handle_leave st s r)) !! r' = V1.activeSessions st !! r'.
Proof.
  intros Hne. unfold V1.handle_leave.
  destruct (V1.activeSessions st !! r) as [rm|]; [|done].
  destruct (V1.rm_users rm !! s); [|done].
  destruct (Nat.eqb (size (delete s (V1.rm_users rm))) 0); simpl.
  - rewrite lookup_delete_ne by congruence. by rewrite lookup_insert_ne by congruence.
  - by rewrite lookup_insert_ne by congruence.
Qed.

(** C7 (counterexample): a socket that joins session [A] and then session
    [B] without leaving [A] is still a participant of [A] after it
    disconnects: the disconnect handler only leaves the session recorded
    last in [socket.currentSession]. *)
Theorem V1_disconnect_leaves_stale_membership :
  let A := "aaaaaaaaaaaaaaaaaaaaaaaa" in
  let B := "bbbbbbbbbbbbbbbbbbbbbbbb" in
  let st := V1.run V1.init [(0%Z, V1.Join "s1" A (Some alice)); (1%Z, V1.Join "s1" B (Some alice));
                            (2%Z, V1.Disconnect "s1")] in
  V1.member st A "s1" = true /\ V1.member st B "s1" = false.
Proof. vm_compute. split; reflexivity. Qed.

(** C7 (amended): [handleUserLeaveSession(socket, sessionId)], which both
    [leave-session] and [disconnect] (with [socket.currentSession]) call,
    is total and idempotent: for a socket that is not a participant of the
    named session it changes nothing and emits nothing; otherwise it
    removes the socket from that session's participants, and a second call
    is a no-op.  Sessions other than the named one are untouched, so a
    participation in a session joined earlier without leaving remains. *)
Theorem V1_leave_idempotent (st : V1.State) (s r : string) :
  (V1.member st r s = false -> V1.handle_leave st s r = (st, [])) /\
  V1.member (fst (V1.handle_leave st s r)) r s = false /\
  V1.handle_leave (fst (V1.handle_leave st s r)) s r = (fst (V1.handle_leave st s r), []) /\
  (forall r', r' <> r ->
     V1.activeSessions (fst (V1.handle_leave st s r)) !! r' = V1.activeSessions st !! r').
Proof.
  split; [apply V1_handle_leave_not_member|]. split; [apply V1_handle_leave_removes|].
  split; [apply V1_handle_leave_not_member, V1_handle_leave_removes|].
  intros r'. apply V1_handle_leave_other.
Qed.

(** ** C8 *)

(** C8 (counterexample): a socket that never sent [authenticate] joins a
    session and sends [code-change]: the stored code changes, and nothing
    is sent back to it. *)
Theorem V1_unidentified_edit_accepted :
  let st := V1.run V1.init [(0%Z, V1.Join "s1" R0 (Some alice))] in
  sk_userData (V1.sock st "s1") = None /\
  V1.snapshot (fst (V1.step st (1%Z, V1.CodeChange "s1" R0 "x = 1" "insert"))) R0 = Some "x = 1" /\
  Forall (fun o => o_target o <> ToSocket "s1") (snd (V1.step st (1%Z, V1.CodeChange "s1" R0 "x = 1" "insert"))).
Proof.
  vm_compute. split; [reflexivity | split; [reflexivity |]].
  repeat constructor; discriminate.
Qed.

(** C8 (amended): of the session-scoped handlers only [chat-message]
    checks identification, and it drops a message from a socket that never
    authenticated silently, without a state change or any emission;
    [code-change] from such a socket, once it has joined a session, stores
    the submitted code like any other; neither [code-change] nor
    [cursor-position] ever sends anything back to the sender. *)
Theorem V1_unidentified_events (st : V1.State) (s r c op msg : string) (now : Z) (rnd : Q)
    (pos : option Position) :
  sk_userData (V1.sock st s) = None ->
  V1.chat_message st s r msg now rnd = (st, []) /\
  (sk_currentSession (V1.sock st s) <> None -> is_empty r = false ->
   V1.snapshot (fst (V1.code_change st s r c op now)) r = Some c) /\
  Forall (fun o => o_target o <> ToSocket s) (snd (V1.code_change st s r c op now)) /\
  Forall (fun o => o_target o <> ToSocket s) (snd (V1.cursor_position st s r pos)).
Proof.
  intros Hu. split; [unfold V1.chat_message; by rewrite Hu|]. split; [|split].
  - intros Hs Hr. unfold V1.code_change.
    destruct (sk_currentSession (V1.sock st s)) as [cur|]; [|congruence].
    rewrite Hr. simpl.
    destruct (V1.activeSessions st !! r) as [rm|]; [destruct (V1.rm_users rm !! s)|];
      unfold V1.snapshot; simpl; apply lookup_insert_eq.
  - unfold V1.code_change.
    destruct (sk_currentSession (V1.sock st s)); [|constructor].
    destruct (is_empty r); [constructor|]. simpl.
    destruct (V1.activeSessions st !! r) as [rm|]; [destruct (V1.rm_users rm !! s)|];
      repeat constructor; discriminate.
  - unfold V1.cursor_position. destruct pos; [|constructor].
    destruct (is_empty r); [constructor|].
    destruct (V1.sessionCursors st !! r); repeat constructor; discriminate.
Qed.

Lemma V1_unidentified_events_witness :
  let st := V1.run V1.init [(0%Z, V1.Join "s1" R0 (Some alice))] in
  sk_userData (V1.sock st "s1") = None /\
  (V1.chat_message st "s1" R0 "hi" 5 (1#2) = (st, []) /\
  (sk_currentSession (V1.sock st "s1") <> None -> is_empty R0 = false ->
   V1.snapshot (fst (V1.code_change st "s1" R0 "x" "insert" 5)) R0 = Some "x") /\
  Forall (fun o => o_target o <> ToSocket "s1") (snd (V1.code_change st "s1" R0 "x" "insert" 5)) /\
  Forall (fun o => o_target o <> ToSocket "s1") (snd (V1.cursor_position st "s1" R0 None))).
Proof.
  intros st. assert (H : sk_userData (V1.sock st "s1") = None) by reflexivity.
  split; [exact H | apply (V1_unidentified_events st "s1" R0 "x" "insert" "hi" 5 (1#2) None H)].
Defined.

(** In V1, the last participant leaving a session removes the session's
    participants map, code snapshot and cursors ([handleUserLeaveSession]). *)
Lemma V1_handle_leave_last_destroys (st : V1.State) (s r : string) rm p :
  V1.activeSessions st !! r = Some rm -> V1.rm_users rm !! s = Some p ->
  size (delete s (V1.rm_users rm)) = 0%nat ->
  V1.activeSessions (fst (V1.handle_leave st s r)) !! r = None /\
  V1.sessionCode (fst (V1.handle_leave st s r)) !! r = None /\
  V1.sessionCursors (fst (V1.handle_leave st s r)) !! r = None.
Proof.
  intros Ha Hu Hz. unfold V1.handle_leave. rewrite Ha, Hu, Hz. simpl.
  by rewrite !lookup_delete_eq.
Qed.

(** ** C9 *)

Lemma back_act (st st' : V1.State) (r s : string) :
  V1.activeSessions st' = V1.activeSessions st -> back st st' r s.
Proof. intros He rm' p' H1 H2 H3. rewrite He in H1. eauto 6. Qed.

Lemma back_trans (st1 st2 st3 : V1.State) (r s : string) :
  back st1 st2 r s -> back st2 st3 r s -> back st1 st3 r s.
Proof.
  intros H12 H23 rm3 p3 H1 H2 H3.
  destruct (H23 rm3 p3 H1 H2 H3) as (rm2 & p2 & Ha2 & Hi2 & Hu2 & Ht2).
  destruct (H12 rm2 p2 Ha2 Hu2 Ht2) as (rm1 & p1 & Ha1 & Hi1 & Hu1 & Ht1).
  exists rm1, p1. repeat split; congruence.
Qed.

Lemma fire_timer_frame (st : V1.State) (tm : V1.Timer) :
  V1.timers (fst (V1.fire_timer st tm)) = V1.timers st /\
  V1.sockets (fst (V1.fire_timer st tm)) = V1.sockets st.
Proof.
  unfold V1.fire_timer.
  destruct (V1.activeSessions st !! V1.tm_room tm) as [rm|]; [|done].
  destruct (Nat.eqb (V1.rm_inst rm) (V1.tm_inst tm)); [|done].
  destruct (V1.rm_users rm !! V1.tm_socket tm); done.
Qed.

Lemma fire_timer_back (st : V1.State) (tm : V1.Timer) (r s : string) rm1 p1 :
  V1.activeSessions (fst (V1.fire_timer st tm)) !! r = Some rm1 ->
  V1.rm_users rm1 !! s = Some p1 -> p_isTyping p1 = true ->
  exists rm p, V1.activeSessions st !! r = Some rm /\ V1.rm_inst rm = V1.rm_inst rm1 /\
               V1.rm_users rm !! s = Some p /\ p_isTyping p = true /\
               ~ matches tm r (V1.rm_inst rm) s.
Proof.
  intros H1 H2 H3. unfold V1.fire_timer in H1.
  destruct (V1.activeSessions st !! V1.tm_room tm) as [rmt|] eqn:Ht.
  2: { simpl in H1. exists rm1, p1. repeat split; auto.
       intros (Hr & _ & _). subst r. congruence. }
  destruct (Nat.eqb_spec (V1.rm_inst rmt) (V1.tm_inst tm)) as [Hi|Hi].
  2: { simpl in H1. exists rm1, p1. repeat split; auto.
       intros (Hr & Hi' & _). subst r. rewrite Ht in H1. injection H1 as <-. congruence. }
  destruct (V1.rm_users rmt !! V1.tm_socket tm) as [ud|] eqn:Hu.
  2: { simpl in H1. exists rm1, p1. repeat split; auto.
       intros (Hr & _ & Hs). subst r s. rewrite Ht in H1. injection H1 as <-. congruence. }
  simpl in H1.
  destruct (decide (V1.tm_room tm = r)) as [Hr|Hr].
  - subst r. rewrite lookup_insert_eq in H1. injection H1 as <-. simpl in H2.
    destruct (decide (V1.tm_socket tm = s)) as [Hs|Hs].
    + subst s. rewrite lookup_insert_eq in H2. injection H2 as <-. simpl in H3. discriminate.
    + rewrite lookup_insert_ne in H2 by done. exists rmt, p1. repeat split; auto.
      intros (_ & _ & Hs'). done.
  - rewrite lookup_insert_ne in H1 by done. exists rm1, p1. repeat split; auto.
    intros (Hr' & _). done.
Qed.

Lemma fold_fire_frame (due : list V1.Timer) (acc : V1.State * list Out) :
  V1.timers (fst (fold_left V1.fire_acc due acc)) = V1.timers (fst acc) /\
  V1.sockets (fst (fold_left V1.fire_acc due acc)) = V1.sockets (fst acc).
Proof.
  revert acc. induction due as [|tm due IH]; intros acc; simpl; [done|].
  destruct (IH (V1.fire_acc acc tm)) as [H1 H2]. rewrite H1, H2.
  unfold V1.fire_acc. simpl. apply fire_timer_frame.
Qed.

Lemma fold_fire_back (due : list V1.Timer) (acc : V1.State * list Out) (r s : string) rm' p' :
  V1.activeSessions (fst (fold_left V1.fire_acc due acc)) !! r = Some rm' ->
  V1.rm_users rm' !! s = Some p' -> p_isTyping p' = true ->
  exists rm p, V1.activeSessions (fst acc) !! r = Some rm /\ V1.rm_inst rm = V1.rm_inst rm' /\
               V1.rm_users rm !! s = Some p /\ p_isTyping p = true /\
               (forall tm, In tm due -> ~ matches tm r (V1.rm_inst rm) s).
Proof.
  revert acc. induction due as [|tm due IH]; intros acc H1 H2 H3; simpl in H1.
  - exists rm', p'. repeat split; auto. all: intros tm [].
  - destruct (IH _ H1 H2 H3) as (rm1 & p1 & Ha1 & Hi1 & Hu1 & Ht1 & Hn1).
    unfold V1.fire_acc in Ha1. simpl in Ha1.
    destruct (fire_timer_back _ _ _ _ _ _ Ha1 Hu1 Ht1) as (rm & p & Ha & Hi & Hu & Ht & Hn).
    exists rm, p. repeat split; auto; [congruence|].
    intros tm' [<-|Hin]; [done|]. rewrite Hi. auto.
Qed.

Lemma fire_due_frame (st : V1.State) (T : Z) :
  V1.timers (fst (V1.fire_due st T)) =
    List.filter (fun tm => negb (Z.leb (V1.tm_deadline tm) T)) (V1.timers st) /\
  V1.sockets (fst (V1.fire_due st T)) = V1.sockets st.
Proof. unfold V1.fire_due. apply fold_fire_frame. Qed.

Lemma fire_due_back (st : V1.State) (T : Z) (r s : string) rm' p' :
  V1.activeSessions (fst (V1.fire_due st T)) !! r = Some rm' ->
  V1.rm_users rm' !! s = Some p' -> p_isTyping p' = true ->
  exists rm p, V1.activeSessions st !! r = Some rm /\ V1.rm_inst rm = V1.rm_inst rm' /\
               V1.rm_users rm !! s = Some p /\ p_isTyping p = true /\
               (forall tm, In tm (V1.timers st) -> (V1.tm_deadline tm <= T)%Z ->
                           ~ matches tm r (V1.rm_inst rm) s).
Proof.
  intros H1 H2 H3. unfold V1.fire_due in H1.
  destruct (fold_fire_back _ _ _ _ _ _ H1 H2 H3) as (rm & p & Ha & Hi & Hu & Ht & Hn).
  exists rm, p. repeat split; auto.
  intros tm Hin Hd. apply Hn. apply filter_In. split; [done|]. by apply Z.leb_le.
Qed.

Lemma covered_fire_due (st : V1.State) (T : Z) (r s : string) (D : Z) :
  covered st r s D -> covered (fst (V1.fire_due st T)) r s D.
Proof.
  intros Hc rm' p' H1 H2 H3.
  destruct (fire_due_back _ _ _ _ _ _ H1 H2 H3) as (rm & p & Ha & Hi & Hu & Ht & Hn).
  destruct (Hc rm p Ha Hu Ht) as (tm & Hin & Hm & Hd).
  exists tm. rewrite (proj1 (fire_due_frame st T)). split; [|split].
  - apply filter_In. split; [done|].
    destruct (Z.leb_spec (V1.tm_deadline tm) T) as [Hle|]; [|done].
    exfalso. exact (Hn tm Hin Hle Hm).
  - rewrite <- Hi. done.
  - done.
Qed.

Lemma typing_expired (st : V1.State) (r s : string) (D T : Z) :
  covered st r s D -> (D <= T)%Z -> V1.typing (fst (V1.fire_due st T)) r s = false.
Proof.
  intros Hc HDT. unfold V1.typing.
  destruct (V1.activeSessions (fst (V1.fire_due st T)) !! r) as [rm'|] eqn:H1; [|done].
  destruct (V1.rm_users rm' !! s) as [p'|] eqn:H2; [|done].
  destruct (p_isTyping p') eqn:H3; [|done]. exfalso.
  destruct (fire_due_back _ _ _ _ _ _ H1 H2 H3) as (rm & p & Ha & Hi & Hu & Ht & Hn).
  destruct (Hc rm p Ha Hu Ht) as (tm & Hin & Hm & Hd).
  apply (Hn tm Hin); [lia | done].
Qed.

Ltac same_act :=
  repeat case_match; simpl;
  (split; [apply back_act; reflexivity | apply incl_refl]).

Lemma handle_leave_back (st : V1.State) (s' r' r s : string) :
  back st (fst (V1.handle_leave st s' r')) r s /\
  V1.timers (fst (V1.handle_leave st s' r')) = V1.timers st.
Proof.
  unfold V1.handle_leave.
  destruct (V1.activeSessions st !! r') as [rm0|] eqn:Ha0; [|split; [apply back_act|]; done].
  destruct (V1.rm_users rm0 !! s') eqn:Hu0; [|split; [apply back_act|]; done].
  destruct (Nat.eqb (size (delete s' (V1.rm_users rm0))) 0);
    (split; [|reflexivity]); intros rm' p' H1 H2 H3; simpl in H1.
  - destruct (decide (r = r')) as [->|Hne]; [by rewrite lookup_delete_eq in H1|].
    rewrite lookup_delete_ne, lookup_insert_ne in H1 by congruence. eauto 6.
  - destruct (decide (r = r')) as [->|Hne].
    + rewrite lookup_insert_eq in H1. injection H1 as <-. simpl in H2.
      destruct (decide (s = s')) as [->|Hs]; [by rewrite lookup_delete_eq in H2|].
      rewrite lookup_delete_ne in H2 by congruence. eauto 6.
    + rewrite lookup_insert_ne in H1 by congruence. eauto 6.
Qed.

Lemma join_back (st : V1.State) (s' r' : string) (u : option User) (now : Z) (r s : string) :
  back st (fst (V1.join_session st s' r' u now)) r s /\
  V1.timers (fst (V1.join_session st s' r' u now)) = V1.timers st.
Proof.
  unfold V1.join_session.
  destruct u as [u|]; [|split; [apply back_act|]; done].
  destruct (is_empty r'); [split; [apply back_act|]; done|].
  destruct (negb (V1.objectid_is_valid r')); [split; [apply back_act|]; done|].
  simpl. destruct (V1.activeSessions st !! r') as [rm0|] eqn:Ha0; simpl.
  - rewrite Ha0. split; [|reflexivity]. intros rm' p' H1 H2 H3. simpl in H1.
    destruct (decide (r = r')) as [->|Hne].
    + rewrite lookup_insert_eq in H1. injection H1 as <-. simpl in H2.
      destruct (decide (s = s')) as [->|Hs].
      * rewrite lookup_insert_eq in H2. injection H2 as <-. discriminate.
      * rewrite lookup_insert_ne in H2 by congruence. eauto 6.
    + rewrite lookup_insert_ne in H1 by congruence. eauto 6.
  - rewrite lookup_insert_eq. simpl. split; [|reflexivity].
    intros rm' p' H1 H2 H3. simpl in H1.
    destruct (decide (r = r')) as [->|Hne].
    + rewrite lookup_insert_eq in H1. injection H1 as <-. simpl in H2.
      destruct (decide (s = s')) as [->|Hs].
      * rewrite lookup_insert_eq in H2. injection H2 as <-. discriminate.
      * rewrite lookup_insert_ne, lookup_empty in H2 by congruence. discriminate.
    + rewrite !lookup_insert_ne in H1 by congruence. eauto 6.
Qed.

Lemma code_change_back (st : V1.State) (s' r' c op : string) (now : Z) (r s : string) :
  s' <> s ->
  back st (fst (V1.code_change st s' r' c op now)) r s /\
  incl (V1.timers st) (V1.timers (fst (V1.code_change st s' r' c op now))).
Proof.
  intros Hs. unfold V1.code_change.
  destruct (sk_currentSession (V1.sock st s')); [|split; [apply back_act; done | apply incl_refl]].
  destruct (is_empty r'); [split; [apply back_act; done | apply incl_refl]|]. simpl.
  destruct (V1.activeSessions st !! r') as [rm0|] eqn:Ha0;
    [destruct (V1.rm_users rm0 !! s') as [ud|] eqn:Hu0|];
    [| split; [apply back_act; done | apply incl_refl] ..].
  split.
  - intros rm' p' H1 H2 H3. simpl in H1.
    destruct (decide (r = r')) as [->|Hne].
    + rewrite lookup_insert_eq in H1. injection H1 as <-. simpl in H2.
      rewrite lookup_insert_ne in H2 by congruence. eauto 6.
    + rewrite lookup_insert_ne in H1 by congruence. eauto 6.
  - intros x Hx. simpl. apply in_or_app. by left.
Qed.

Lemma handle_back (st : V1.State) (now : Z) (e : V1.Event) (r s : string) :
  not_edit_by s e ->
  back st (fst (V1.handle st now e)) r s /\
  incl (V1.timers st) (V1.timers (fst (V1.handle st now e))).
Proof.
  intros He. destruct e as [s' ud|s' r' u|s' r' c op|s' r' pos|s' r' m rnd|s' r'|s']; simpl in *.
  - unfold V1.authenticate. same_act.
  - destruct (join_back st s' r' u now r s) as [H1 H2]. rewrite H2. split; [done | apply incl_refl].
  - by apply code_change_back.
  - unfold V1.cursor_position. same_act.
  - unfold V1.chat_message. same_act.
  - unfold V1.leave_session. destruct (handle_leave_back st s' r' r s) as [H1 H2].
    rewrite H2. split; [done | apply incl_refl].
  - unfold V1.disconnect.
    set (st2 := match sk_userData (V1.sock st s') with
                | Some u => if is_empty (u_id u) then V1.set_rooms st (io_leave_all (V1.ioRooms st) s')
                            else V1.set_us (V1.set_rooms st (io_leave_all (V1.ioRooms st) s'))
                                   (delete (u_id u) (V1.userSockets (V1.set_rooms st (io_leave_all (V1.ioRooms st) s'))))
                | None => V1.set_rooms st (io_leave_all (V1.ioRooms st) s')
                end).
    assert (Hact : V1.activeSessions st2 = V1.activeSessions st /\ V1.timers st2 = V1.timers st).
    { unfold st2. destruct (sk_userData (V1.sock st s')) as [u|]; [destruct (is_empty (u_id u))|]; done. }
    destruct Hact as [Ha Ht].
    destruct (sk_currentSession (V1.sock st s')) as [r'|]; [destruct (is_empty r')|];
      try (cbn [fst]; split; [apply back_act; exact Ha | rewrite Ht; apply incl_refl]).
    destruct (handle_leave_back st2 s' r' r s) as [H1 H2]. split.
    + eapply back_trans; [apply back_act; exact Ha | exact H1].
    + rewrite H2, Ht. apply incl_refl.
Qed.

Lemma covered_mono (st st' : V1.State) (r s : string) (D : Z) :
  covered st r s D -> back st st' r s -> incl (V1.timers st) (V1.timers st') ->
  covered st' r s D.
Proof.
  intros Hc Hb Hi rm' p' H1 H2 H3.
  destruct (Hb rm' p' H1 H2 H3) as (rm & p & Ha & Hin & Hu & Ht).
  destruct (Hc rm p Ha Hu Ht) as (tm & Htm & Hm & Hd).
  exists tm. split; [by apply Hi|]. rewrite <- Hin. done.
Qed.

Lemma step_fst (st : V1.State) (now : Z) (e : V1.Event) :
  fst (V1.step st (now, e)) = fst (V1.handle (fst (V1.fire_due st now)) now e).
Proof. reflexivity. Qed.

Lemma covered_step (st : V1.State) (now : Z) (e : V1.Event) (r s : string) (D : Z) :
  covered st r s D -> not_edit_by s e -> covered (fst (V1.step st (now, e))) r s D.
Proof.
  intros Hc He. rewrite step_fst.
  destruct (handle_back (fst (V1.fire_due st now)) now e r s He) as [Hb Hi].
  eapply covered_mono; [apply covered_fire_due, Hc | exact Hb | exact Hi].
Qed.

Lemma covered_run (es : list (Z * V1.Event)) (st : V1.State) (r s : string) (D : Z) :
  covered st r s D -> Forall (fun te => not_edit_by s (snd te)) es ->
  covered (V1.run st es) r s D.
Proof.
  revert st. induction es as [|[now e] es IH]; intros st Hc Hes; simpl; [done|].
  inversion Hes as [|? ? He Hes']; subst.
  apply IH; [|done]. by apply covered_step.
Qed.

Lemma covered_after_edit (st : V1.State) (t : Z) (s r c op : string) :
  sk_currentSession (V1.sock st s) <> None -> is_empty r = false ->
  covered (fst (V1.step st (t, V1.CodeChange s r c op))) r s (t + 2000).
Proof.
  intros Hs Hr. rewrite step_fst. simpl.
  set (st1 := fst (V1.fire_due st t)).
  assert (Hs1 : sk_currentSession (V1.sock st1 s) <> None).
  { unfold V1.sock, st1. by rewrite (proj2 (fire_due_frame st t)). }
  unfold V1.code_change.
  destruct (sk_currentSession (V1.sock st1 s)) as [cur|]; [|contradiction].
  rewrite Hr. simpl.
  destruct (V1.activeSessions st1 !! r) as [rm0|] eqn:Ha0;
    [destruct (V1.rm_users rm0 !! s) as [ud|] eqn:Hu0|];
    intros rm' p' H1 H2 H3; simpl in H1.
  - rewrite lookup_insert_eq in H1. injection H1 as <-. simpl in H2.
    rewrite lookup_insert_eq in H2. injection H2 as <-.
    exists (V1.mkTimer (t + 2000) r (V1.rm_inst rm0) s). split; [|split].
    + simpl. apply in_or_app. right. by left.
    + done.
    + simpl. lia.
  - rewrite Ha0 in H1. injection H1 as <-. congruence.
  - congruence.
Qed.

(** C9: in V1, once [code-change] from a socket that has joined a session
    sets its typing flag at time [t], the flag is gone from that session
    at any time [T >= t + 2000], whatever other sockets do in between and
    also when the socket leaves or disconnects meanwhile, provided it sends
    no further [code-change] (which would set the flag again). *)
Theorem V1_typing_expires (st : V1.State) (t T : Z) (s r c op : string)
    (es : list (Z * V1.Event)) :
  sk_currentSession (V1.sock st s) <> None -> is_empty r = false ->
  Forall (fun te => not_edit_by s (snd te)) es -> (t + 2000 <= T)%Z ->
  V1.typing (fst (V1.fire_due (V1.run (fst (V1.step st (t, V1.CodeChange s r c op))) es) T)) r s
    = false.
Proof.
  intros Hs Hr Hes HT.
  apply (typing_expired _ r s (t + 2000)); [|exact HT].
  apply covered_run; [|exact Hes].
  by apply covered_after_edit.
Qed.

Lemma V1_typing_expires_witness :
  let st := V1.run V1.init [(0%Z, V1.Join "s1" R0 (Some alice));
                            (5%Z, V1.Join "s2" R0 (Some (mkUser "u2" "bob")))] in
  let es := [(500%Z, V1.CodeChange "s2" R0 "y=2" "edit");
             (1500%Z, V1.ChatMsg "s2" R0 "hi" (1#2))] in
  V1.typing (fst (V1.step st (10%Z, V1.CodeChange "s1" R0 "x=1" "edit"))) R0 "s1" = true /\
  V1.typing (fst (V1.fire_due (V1.run (fst (V1.step st (10%Z, V1.CodeChange "s1" R0 "x=1" "edit"))) es)
                   2010%Z)) R0 "s1" = false.
Proof.
  intros st es. split; [vm_compute; reflexivity|].
  apply V1_typing_expires.
  - vm_compute. discriminate.
  - vm_compute. reflexivity.
  - repeat constructor; simpl; discriminate.
  - lia.
Defined.

(* ================================================================== *)
(** * Further properties of the code *)

#[local] Arguments String.append : simpl nomatch.

Lemma str_app_nil_r (s : string) : (s ++ EmptyString)%string = s.
Proof. induction s as [|c s IH]; simpl; [reflexivity | now rewrite IH]. Qed.

Lemma str_app_cons (a : Ascii.ascii) (s t : string) :
  (String a s ++ t)%string = String a (s ++ t).
Proof. reflexivity. Qed.

Lemma str_app_assoc (a b c : string) : ((a ++ b) ++ c)%string = (a ++ (b ++ c))%string.
Proof. induction a as [|x a IH]; simpl; [reflexivity | now rewrite IH]. Qed.

Lemma str_length_app (a b : string) :
  String.length (a ++ b) = (String.length a + String.length b)%nat.
Proof. induction a as [|x a IH]; simpl; [reflexivity | now rewrite IH]. Qed.

Lemma js_split_nonempty (c : Ascii.ascii) (s : string) : js_split c s <> [].
Proof.
  destruct s as [|x r]; simpl; [discriminate|].
  destruct (Ascii.eqb x c); [discriminate|]. destruct (js_split c r); discriminate.
Qed.

Lemma js_join_split (c : Ascii.ascii) (s : string) :
  js_join (String c EmptyString) (js_split c s) = s.
Proof.
  induction s as [|x r IH]; [reflexivity|]. simpl.
  destruct (Ascii.eqb x c) eqn:E.
  - apply Ascii.eqb_eq in E. subst x.
    destruct (js_split c r) as [|h t] eqn:Hs; [exfalso; exact (js_split_nonempty c r Hs)|].
    simpl. rewrite <- IH. reflexivity.
  - destruct (js_split c r) as [|h t] eqn:Hs; [exfalso; exact (js_split_nonempty c r Hs)|].
    destruct t as [|h' t]; simpl in *; rewrite <- IH; reflexivity.
Qed.

Lemma js_split_lacks_app (c : Ascii.ascii) (x y : string) :
  lacks c x = true ->
  js_split c (x ++ y) =
  match js_split c y with [] => [x] | h :: t => (x ++ h)%string :: t end.
Proof.
  induction x as [|a x IH]; intros Hl.
  - simpl. destruct (js_split c y) eqn:E; [exfalso; exact (js_split_nonempty c y E)|]. reflexivity.
  - unfold lacks in Hl. simpl in Hl. apply andb_prop in Hl as [Ha Hl].
    simpl. rewrite (negb_true_iff _) in Ha. rewrite Ha. rewrite (IH Hl).
    destruct (js_split c y) eqn:E; [exfalso; exact (js_split_nonempty c y E)|]. reflexivity.
Qed.

Lemma js_split_join (c : Ascii.ascii) (l : list string) :
  Forall (fun x => lacks c x = true) l -> l <> [] ->
  js_split c (js_join (String c EmptyString) l) = l.
Proof.
  induction l as [|x r IH]; intros Hf Hne; [congruence|].
  inversion Hf as [|? ? Hx Hr]; subst.
  destruct r as [|y r].
  - simpl. rewrite <- (str_app_nil_r x) at 1. rewrite (js_split_lacks_app c x _ Hx).
    simpl. now rewrite str_app_nil_r.
  - change (js_join (String c EmptyString) (x :: y :: r))
      with (x ++ String c EmptyString ++ js_join (String c EmptyString) (y :: r))%string.
    rewrite (js_split_lacks_app c x _ Hx). rewrite str_app_cons. change (EmptyString ++ ?z)%string with z. cbn [js_split]. rewrite Ascii.eqb_refl.
    rewrite IH by (auto; discriminate). now rewrite str_app_nil_r.
Qed.

Lemma js_split_all_lack (c : Ascii.ascii) (s : string) :
  Forall (fun x => lacks c x = true) (js_split c s).
Proof.
  induction s as [|a r IH]; simpl.
  - repeat constructor.
  - destruct (Ascii.eqb a c) eqn:E.
    + constructor; [reflexivity | exact IH].
    + destruct (js_split c r) as [|h t]; [constructor; [|constructor]|].
      * unfold lacks; simpl. rewrite E. reflexivity.
      * inversion IH; subst. constructor; [|assumption].
        unfold lacks in *; simpl. rewrite E. assumption.
Qed.

Lemma js_split_length (c : Ascii.ascii) (s : string) :
  length (js_split c s) = S (count_char c s).
Proof.
  unfold count_char. induction s as [|a r IH]; simpl; [reflexivity|].
  destruct (Ascii.eqb a c) eqn:E; simpl.
  - now rewrite IH.
  - destruct (js_split c r) eqn:Hs; [exfalso; exact (js_split_nonempty c r Hs)|]. simpl in *. exact IH.
Qed.

Lemma substring_0_app (a b : string) :
  String.substring 0 (String.length a) (a ++ b) = a.
Proof. induction a as [|x a IH]; [destruct b; reflexivity | simpl; now rewrite IH]. Qed.

Lemma substring_skip_app (a b : string) (n m : nat) :
  String.substring (String.length a + n) m (a ++ b) = String.substring n m b.
Proof. induction a as [|x a IH]; [reflexivity | exact IH]. Qed.

Lemma substring_full (s : string) : String.substring 0 (String.length s) s = s.
Proof. induction s as [|x s IH]; [reflexivity | simpl; now rewrite IH]. Qed.

Lemma substring_split (s : string) (n : nat) :
  (n <= String.length s)%nat ->
  (String.substring 0 n s ++ String.substring n (String.length s - n) s)%string = s.
Proof.
  revert n. induction s as [|x s IH]; intros n Hn.
  - destruct n; reflexivity.
  - destruct n as [|n].
    + simpl. now rewrite substring_full.
    + simpl in *. try rewrite str_app_cons. f_equal. apply IH. lia.
Qed.

Lemma substring_0_length (s : string) (n : nat) :
  (n <= String.length s)%nat -> String.length (String.substring 0 n s) = n.
Proof.
  revert n. induction s as [|x s IH]; intros n Hn.
  - destruct n; simpl in *; [reflexivity | lia].
  - destruct n as [|n]; [reflexivity|]. simpl in *. f_equal. apply IH. lia.
Qed.

Lemma lacks_cons (c a : Ascii.ascii) (s : string) :
  lacks c (String a s) = negb (Ascii.eqb a c) && lacks c s.
Proof. reflexivity. Qed.

Lemma lacks_app (c : Ascii.ascii) (a b : string) :
  lacks c (a ++ b) = lacks c a && lacks c b.
Proof.
  induction a as [|x a IH]; [reflexivity|].
  rewrite str_app_cons, !lacks_cons, IH. apply andb_assoc.
Qed.

Lemma lacks_substring (c : Ascii.ascii) (s : string) (n m : nat) :
  lacks c s = true -> lacks c (String.substring n m s) = true.
Proof.
  revert n m. induction s as [|x s IH]; intros n m H.
  - destruct n, m; reflexivity.
  - rewrite lacks_cons in H. apply andb_prop in H as [Hx Hs].
    destruct n as [|n]; [destruct m as [|m]|]; simpl.
    + reflexivity.
    + rewrite lacks_cons, Hx. simpl. now apply IH.
    + now apply IH.
Qed.

Lemma prefix_single (c x : Ascii.ascii) (s : string) :
  String.prefix (String c EmptyString) (String x s) = Ascii.eqb c x.
Proof.
  destruct s; simpl; destruct (Ascii.ascii_dec c x) as [->|Hn];
    (rewrite Ascii.eqb_refl; reflexivity) || (symmetry; apply Ascii.eqb_neq; exact Hn).
Qed.

Lemma js_includes_char (c : Ascii.ascii) (s : string) :
  js_includes s (String c EmptyString) = negb (lacks c s).
Proof.
  induction s as [|x s IH]; [reflexivity|].
  unfold js_includes; fold js_includes. rewrite prefix_single, IH, lacks_cons.
  rewrite (Ascii.eqb_sym c x). destruct (Ascii.eqb x c); reflexivity.
Qed.

Lemma js_substring_0 (s : string) (a : Z) :
  (0 <= a <= Z.of_nat (String.length s))%Z ->
  js_substring s 0 a = String.substring 0 (Z.to_nat a) s.
Proof.
  intros H. unfold js_substring, js_clamp.
  replace (Z.to_nat (Z.max 0 (Z.min 0 (Z.of_nat (String.length s))))) with 0%nat by lia.
  replace (Z.to_nat (Z.max 0 (Z.min a (Z.of_nat (String.length s))))) with (Z.to_nat a) by lia.
  f_equal; lia.
Qed.

Lemma js_substring_from_in (s : string) (a : Z) :
  (0 <= a <= Z.of_nat (String.length s))%Z ->
  js_substring_from s a = String.substring (Z.to_nat a) (String.length s - Z.to_nat a) s.
Proof.
  intros H. unfold js_substring_from, js_substring, js_clamp.
  replace (Z.to_nat (Z.max 0 (Z.min a (Z.of_nat (String.length s))))) with (Z.to_nat a) by lia.
  replace (Z.to_nat (Z.max 0 (Z.min (Z.of_nat (String.length s)) (Z.of_nat (String.length s)))))
    with (String.length s) by lia.
  f_equal; lia.
Qed.

Lemma js_index_Some (l : list string) (i : Z) (x : string) :
  js_index l i = Some x <-> (0 <= i)%Z /\ l !! Z.to_nat i = Some x.
Proof. unfold js_index. destruct (i <? 0)%Z eqn:E; [split; [discriminate|lia]|]. split; [intros; split; [lia|]|]; tauto. Qed.

Import CodeDoc.

Lemma lines_lack (s : string) : Forall (fun x => lacks nl_char x = true) (js_split nl_char s).
Proof. apply js_split_all_lack. Qed.

Lemma split_join_nl (l : list string) :
  Forall (fun x => lacks nl_char x = true) l -> l <> [] ->
  js_split nl_char (js_join nl l) = l.
Proof. apply js_split_join. Qed.

Lemma join_split_nl (s : string) : js_join nl (js_split nl_char s) = s.
Proof. apply js_join_split. Qed.

(** Inserting a one-line text at a position inside an existing line and
    then deleting as many characters at the same position gives back the
    original content, two versions later. *)
Theorem CodeDoc_insert_delete_roundtrip (d : Doc) (l c : Z) (ln t : string)
    (u u' id1 id2 : string) (len1 : option Z) (ct : option string) :
  js_index (js_split nl_char (content d)) l = Some ln ->
  (0 <= c <= Z.of_nat (String.length ln))%Z ->
  js_includes t nl = false ->
  let r1 := applyOperation d (mkOperation "insert" (mkPosition l c) (Some t) len1 u) id1 in
  let r2 := applyOperation (fst r1)
              (mkOperation "delete" (mkPosition l c) ct (Some (Z.of_nat (String.length t))) u') id2 in
  snd r1 = true /\ snd r2 = true /\ content (fst r2) = content d /\
  version (fst r2) = (version d + 2)%Z.
Proof.
  intros Hidx Hc Ht r1 r2.
  set (lines := js_split nl_char (content d)) in *.
  pose proof Hidx as Hidx'. apply js_index_Some in Hidx' as [Hl Hlk].
  assert (Hlt : (l < Z.of_nat (length lines))%Z).
  { apply lookup_lt_Some in Hlk. lia. }
  assert (Hlnl : lacks nl_char ln = true).
  { exact (Forall_lookup_1 _ _ _ _ (lines_lack (content d)) Hlk). }
  change nl with (String nl_char EmptyString) in Ht.
  rewrite (js_includes_char nl_char t) in Ht. apply negb_false_iff in Ht.
  set (b := js_substring ln 0 c). set (a := js_substring_from ln c).
  assert (Hb : b = String.substring 0 (Z.to_nat c) ln) by (apply js_substring_0; lia).
  assert (Ha : a = String.substring (Z.to_nat c) (String.length ln - Z.to_nat c) ln)
    by (apply js_substring_from_in; lia).
  assert (Hblen : String.length b = Z.to_nat c) by (rewrite Hb; apply substring_0_length; lia).
  assert (Hba : (b ++ a)%string = ln) by (rewrite Hb, Ha; apply substring_split; lia).
  set (lines1 := <[Z.to_nat l := (b ++ t ++ a)%string]> lines).
  assert (E1 : applyOperation d (mkOperation "insert" (mkPosition l c) (Some t) len1 u) id1 =
     (mkDoc (js_join nl lines1) (version d + 1) true (totalOperations d + 1)
        (let ops := (mkOperation "insert" (mkPosition l c) (Some t) len1 u, id1) :: operations d in
         if (100 <? length ops)%nat then take 100 ops else ops)
        (cursors d) (typingUsers d), true)).
  { unfold applyOperation, edit_lines. fold lines. cbn [op_position op_type op_content line column].
    rewrite (proj2 (Z.ltb_lt _ _) Hlt), Hidx.
    change (js_includes t nl) with (js_includes t (String nl_char EmptyString)).
    rewrite (js_includes_char nl_char t), Ht. reflexivity. }
  assert (Hl1 : js_split nl_char (js_join nl lines1) = lines1).
  { apply split_join_nl.
    - apply Forall_insert; [apply lines_lack|].
      rewrite !lacks_app, Ht. rewrite Hb, Ha, !lacks_substring by exact Hlnl. reflexivity.
    - intros E. unfold lines1 in E. apply (f_equal length) in E.
      rewrite length_insert in E. simpl in E. lia. }
  assert (Hidx1 : js_index lines1 l = Some (b ++ t ++ a)%string).
  { apply js_index_Some. split; [lia|]. apply list_lookup_insert_eq. lia. }
  assert (Hsub1 : js_substring (b ++ t ++ a) 0 c = b).
  { rewrite js_substring_0.
    - rewrite <- Hblen. apply substring_0_app.
    - rewrite !str_length_app. lia. }
  assert (Hsub2 : js_substring_from (b ++ t ++ a) (c + Z.of_nat (String.length t)) = a).
  { rewrite js_substring_from_in.
    - rewrite <- str_app_assoc.
      replace (Z.to_nat (c + Z.of_nat (String.length t))) with (String.length (b ++ t) + 0)%nat
        by (rewrite str_length_app; lia).
      rewrite substring_skip_app. rewrite !str_length_app.
      replace (String.length b + String.length t + String.length a - (String.length b + String.length t + 0))%nat
        with (String.length a) by lia.
      apply substring_full.
    - rewrite !str_length_app. lia. }
  subst r1 r2. rewrite E1. cbn [fst snd content version].
  unfold applyOperation, edit_lines. cbn [content op_position op_type op_content op_length line column]. rewrite Hl1.
  assert (Hlt1 : (l < Z.of_nat (length lines1))%Z) by (unfold lines1; rewrite length_insert; lia).
  rewrite (proj2 (Z.ltb_lt _ _) Hlt1), Hidx1. cbn [content fst snd version].
  rewrite (eq_refl : ("delete" =? "insert") = false), (eq_refl : ("delete" =? "delete") = true).
  cbv beta iota zeta. rewrite Hsub1, Hsub2, Hba. unfold lines1. rewrite list_insert_insert.
  rewrite decide_True by reflexivity. rewrite (list_insert_id _ _ _ Hlk).
  cbn [content version]. split; [reflexivity|]. split; [reflexivity|].
  split; [apply join_split_nl | cbn; lia].
Qed.

Lemma fold_splice_ins (i m : nat) (ins l1 : list string) :
  (i < length l1)%nat ->
  fold_left (fun acc k => splice_ins (i + k) (nth k ins EmptyString) acc) (seq 1 m) l1 =
  app (take (i + 1) l1) (app (map (fun k => nth k ins EmptyString) (seq 1 m)) (drop (i + 1) l1)).
Proof.
  intros Hi. induction m as [|m IH].
  - simpl. symmetry. apply take_drop.
  - rewrite seq_S, fold_left_app, IH. cbn [fold_left]. unfold splice_ins.
    rewrite map_app. cbn [map].
    rewrite (app_assoc (take (i + 1) l1)).
    assert (Hlen : length (app (take (i + 1) l1) (map (fun k => nth k ins EmptyString) (seq 1 m)))
                   = (i + (1 + m))%nat).
    { rewrite length_app, length_map, length_seq, length_take. lia. }
    rewrite <- Hlen, take_app_length, drop_app_length.
    rewrite <- !app_assoc. reflexivity.
Qed.

Lemma Forall_nth_default {A} (P : A -> Prop) (l : list A) (k : nat) (x : A) :
  Forall P l -> P x -> P (nth k l x).
Proof.
  intros Hl Hx. destruct (decide (k < length l)%nat) as [Hk|Hk].
  - rewrite List.Forall_forall in Hl. apply Hl, nth_In, Hk.
  - rewrite nth_overflow by lia. exact Hx.
Qed.

Lemma is_empty_join2 (c : Ascii.ascii) (x y : string) (r : list string) :
  is_empty (js_join (String c EmptyString) (x :: y :: r)) = false.
Proof. simpl. destruct x; reflexivity. Qed.

(** Inserting a text with line feeds into a line of a nonempty document
    adds exactly as many lines as the text has line feeds. *)
Theorem CodeDoc_multiline_insert_lines (d : Doc) (l c : Z) (ln t u id : string) (len : option Z) :
  is_empty (content d) = false ->
  js_index (js_split nl_char (content d)) l = Some ln ->
  js_includes t nl = true ->
  let r := applyOperation d (mkOperation "insert" (mkPosition l c) (Some t) len u) id in
  snd r = true /\ linesOfCode (fst r) = (linesOfCode d + count_char nl_char t)%nat.
Proof.
  intros Hne Hidx Ht r.
  set (lines := js_split nl_char (content d)) in *.
  pose proof Hidx as Hidx'. apply js_index_Some in Hidx' as [Hl Hlk].
  assert (Hlt : (l < Z.of_nat (length lines))%Z) by (apply lookup_lt_Some in Hlk; lia).
  assert (Hlnl : lacks nl_char ln = true) by exact (Forall_lookup_1 _ _ _ _ (lines_lack (content d)) Hlk).
  pose proof Ht as Ht'. change nl with (String nl_char EmptyString) in Ht'.
  rewrite js_includes_char in Ht'. apply negb_true_iff in Ht'.
  set (ins := js_split nl_char t).
  assert (Hn : length ins = S (count_char nl_char t)) by apply js_split_length.
  assert (Hcnt : count_char nl_char t <> 0%nat).
  { intros E. unfold count_char in E. apply length_zero_iff_nil in E.
    assert (Hall : forallb (fun x => negb (Ascii.eqb x nl_char)) (String.list_ascii_of_string t) = true).
    { apply forallb_forall. intros x Hx. destruct (Ascii.eqb x nl_char) eqn:Ex; [|reflexivity].
      exfalso. assert (Hin : In x (List.filter (fun x => Ascii.eqb x nl_char) (String.list_ascii_of_string t)))
        by (apply List.filter_In; auto).
      rewrite E in Hin. destruct Hin. }
    unfold lacks in Ht'. congruence. }
  set (i := Z.to_nat l).
  set (b := js_substring ln 0 c). set (a := js_substring_from ln c).
  set (l1 := <[i := (b ++ nth 0 ins EmptyString)%string]> lines).
  set (l2 := fold_left (fun acc k => splice_ins (i + k) (nth k ins EmptyString) acc)
                       (seq 1 (length ins - 1)) l1).
  set (li := (i + length ins - 1)%nat).
  assert (Hi : (i < length lines)%nat) by lia.
  assert (Hl1len : length l1 = length lines) by apply length_insert.
  assert (Hl2 : l2 = app (take (i + 1) l1)
                  (app (map (fun k => nth k ins EmptyString) (seq 1 (length ins - 1))) (drop (i + 1) l1)))
    by (apply fold_splice_ins; lia).
  assert (Hl2len : length l2 = (length lines + length ins - 1)%nat).
  { rewrite Hl2, !length_app, length_map, length_seq, length_take, length_drop. lia. }
  assert (Hinslack : Forall (fun x => lacks nl_char x = true) ins) by apply lines_lack.
  assert (Hbl : lacks nl_char b = true) by (apply lacks_substring; exact Hlnl).
  assert (Hal : lacks nl_char a = true) by (apply lacks_substring; exact Hlnl).
  assert (Hl1l : Forall (fun x => lacks nl_char x = true) l1).
  { apply Forall_insert; [apply lines_lack|]. rewrite lacks_app, Hbl.
    apply Forall_nth_default; [exact Hinslack | reflexivity]. }
  assert (Hl2l : Forall (fun x => lacks nl_char x = true) l2).
  { rewrite Hl2. apply Forall_app; split; [apply Forall_take, Hl1l|].
    apply Forall_app; split; [|apply Forall_drop, Hl1l].
    apply List.Forall_forall. intros x Hx. apply in_map_iff in Hx as [k [<- _]].
    apply Forall_nth_default; [exact Hinslack | reflexivity]. }
  set (lines' := <[li := (nth li l2 EmptyString ++ a)%string]> l2).
  assert (Hedit : applyOperation d (mkOperation "insert" (mkPosition l c) (Some t) len u) id =
     (mkDoc (js_join nl lines') (version d + 1) true (totalOperations d + 1)
        (let ops := (mkOperation "insert" (mkPosition l c) (Some t) len u, id) :: operations d in
         if (100 <? length ops)%nat then take 100 ops else ops)
        (cursors d) (typingUsers d), true)).
  { unfold applyOperation, edit_lines. fold lines. cbn [op_position op_type op_content line column].
    rewrite (proj2 (Z.ltb_lt _ _) Hlt), Hidx, Ht. fold ins i b a l1 l2.
    rewrite (proj2 (Nat.ltb_lt 1 (length ins))) by lia. reflexivity. }
  assert (Hl'l : Forall (fun x => lacks nl_char x = true) lines').
  { apply Forall_insert; [exact Hl2l|]. rewrite lacks_app, Hal, andb_true_r.
    apply Forall_nth_default; [exact Hl2l | reflexivity]. }
  assert (Hl'len : length lines' = (length lines + length ins - 1)%nat)
    by (unfold lines'; rewrite length_insert; exact Hl2len).
  subst r. rewrite Hedit. cbn [fst snd]. split; [reflexivity|].
  unfold linesOfCode. cbn [content]. rewrite Hne. fold lines.
  destruct lines' as [|x [|y rest]] eqn:El; simpl in Hl'len; try lia.
  rewrite <- El in *. unfold nl at 1. change (chr 10) with (String nl_char EmptyString).
  rewrite El, is_empty_join2, <- El. rewrite split_join_nl; [|exact Hl'l|rewrite El; discriminate].
  rewrite El; simpl; lia.
Qed.

(** [applyOperation] refuses an operation exactly when it is an insert,
    delete or replace on a negative line, or an insert without content on
    an existing line; a refused operation leaves the document unchanged. *)
Theorem CodeDoc_applyOperation_failure (d : Doc) (op : Operation) (opid : string) :
  (snd (applyOperation d op opid) = false <->
   ((op_type op = "insert" \/ op_type op = "delete" \/ op_type op = "replace") /\
    (line (op_position op) < 0)%Z) \/
   (op_type op = "insert" /\
    (0 <= line (op_position op) < Z.of_nat (length (js_split nl_char (content d))))%Z /\
    op_content op = None)) /\
  (snd (applyOperation d op opid) = false -> fst (applyOperation d op opid) = d).
Proof.
  unfold applyOperation, edit_lines.
  set (lines := js_split nl_char (content d)).
  destruct op as [ty [ln col] cont len uid]; cbn [op_type op_position op_content op_length line column].
  unfold js_index.
  destruct (String.eqb_spec ty "insert") as [->|Hi];
  [|destruct (String.eqb_spec ty "delete") as [->|Hd];
  [|destruct (String.eqb_spec ty "replace") as [->|Hr]]];
  destruct (ln <? Z.of_nat (length lines))%Z eqn:Er;
  destruct (ln <? 0)%Z eqn:En;
  try (apply Z.ltb_lt in Er); try (apply Z.ltb_ge in Er);
  try (apply Z.ltb_lt in En); try (apply Z.ltb_ge in En);
  try (destruct (lines !! Z.to_nat ln) as [x|] eqn:Ex;
       [|apply lookup_ge_None in Ex; lia]);
  try (destruct cont as [c|]; [destruct (js_includes c nl); [destruct (1 <? _)%nat|]|]);
  cbn [fst snd];
  (split; [split; [intros H; discriminate H || (intuition (try discriminate; try lia))
                  |intros H; intuition (try discriminate; try lia; try congruence)]
          |intros H; reflexivity || discriminate H]).
Qed.

(** An operation on a line past the end of the document, or of a type
    other than insert, delete and replace, is accepted without touching the
    content but still counts as a new version in the history. *)
Theorem CodeDoc_noop_operation_counted (d : Doc) (op : Operation) (opid : string) :
  (Z.of_nat (length (js_split nl_char (content d))) <= line (op_position op))%Z \/
  (op_type op <> "insert" /\ op_type op <> "delete" /\ op_type op <> "replace") ->
  let r := applyOperation d op opid in
  snd r = true /\ content (fst r) = content d /\ version (fst r) = (version d + 1)%Z /\
  hasUnsavedChanges (fst r) = true /\ hd_error (operations (fst r)) = Some (op, opid).
Proof.
  intros H r. subst r.
  assert (E : edit_lines op (js_split nl_char (content d)) = Some (js_split nl_char (content d))).
  { unfold edit_lines.
    destruct H as [H | (H1 & H2 & H3)].
    - rewrite (proj2 (Z.ltb_ge _ _) H).
      repeat (destruct (_ =? _); try reflexivity).
    - rewrite (proj2 (String.eqb_neq _ _) H1), (proj2 (String.eqb_neq _ _) H2),
              (proj2 (String.eqb_neq _ _) H3). reflexivity. }
  unfold applyOperation. rewrite E. cbn [fst snd content version hasUnsavedChanges operations].
  split; [reflexivity|]. split; [apply join_split_nl|]. split; [reflexivity|]. split; [reflexivity|].
  destruct (100 <? _)%nat; reflexivity.
Qed.

Lemma CodeDoc_noop_operation_counted_witness :
  let d := mkDoc "ab" 4 false 7 [] [] [] in
  let op := mkOperation "delete" (mkPosition 5 0) None (Some 1%Z) "u1" in
  ((Z.of_nat (length (js_split nl_char (content d))) <= line (op_position op))%Z \/
   (op_type op <> "insert" /\ op_type op <> "delete" /\ op_type op <> "replace")) /\
  (let r := applyOperation d op "u1_1" in
   snd r = true /\ content (fst r) = content d /\ version (fst r) = (version d + 1)%Z /\
   hasUnsavedChanges (fst r) = true /\ hd_error (operations (fst r)) = Some (op, "u1_1")).
Proof.
  intros d op. assert (H : (Z.of_nat (length (js_split nl_char (content d))) <= line (op_position op))%Z)
    by (vm_compute; discriminate).
  split; [left; exact H|]. apply CodeDoc_noop_operation_counted. left; exact H.
Defined.

(** A delete without a length does not remove anything: [substring(column
    + undefined)] is the whole line, so the prefix up to the column is
    duplicated in front of the line. *)
Theorem CodeDoc_delete_without_length (d : Doc) (l c : Z) (ln u id : string) (ct : option string) :
  js_index (js_split nl_char (content d)) l = Some ln ->
  (0 <= c <= Z.of_nat (String.length ln))%Z ->
  let r := applyOperation d (mkOperation "delete" (mkPosition l c) ct None u) id in
  snd r = true /\
  js_split nl_char (content (fst r)) =
    <[Z.to_nat l := (String.substring 0 (Z.to_nat c) ln ++ ln)%string]> (js_split nl_char (content d)).
Proof.
  intros Hidx Hc r. subst r.
  set (lines := js_split nl_char (content d)) in *.
  pose proof Hidx as Hidx'. apply js_index_Some in Hidx' as [Hl Hlk].
  assert (Hlt : (l < Z.of_nat (length lines))%Z) by (apply lookup_lt_Some in Hlk; lia).
  assert (Hlnl : lacks nl_char ln = true) by exact (Forall_lookup_1 _ _ _ _ (lines_lack (content d)) Hlk).
  assert (Hfrom : js_substring_from ln 0 = ln).
  { rewrite js_substring_from_in by lia. cbn [Z.to_nat]. rewrite Nat.sub_0_r. apply substring_full. }
  unfold applyOperation, edit_lines. fold lines. cbn [op_position op_type op_content op_length line column].
  rewrite (eq_refl : ("delete" =? "insert") = false), (eq_refl : ("delete" =? "delete") = true).
  rewrite (proj2 (Z.ltb_lt _ _) Hlt), Hidx. cbv beta iota zeta.
  rewrite Hfrom, js_substring_0 by lia. cbn [fst snd content]. split; [reflexivity|].
  apply split_join_nl.
  - apply Forall_insert; [apply lines_lack|]. rewrite lacks_app, Hlnl, lacks_substring by exact Hlnl.
    reflexivity.
  - intros E. apply (f_equal length) in E. rewrite length_insert in E. simpl in E. lia.
Qed.

Lemma CodeDoc_delete_without_length_witness :
  let d := mkDoc ("ab" ++ nl ++ "cd") 0 false 0 [] [] [] in
  js_index (js_split nl_char (content d)) 1 = Some "cd" /\
  (0 <= 1 <= Z.of_nat (String.length "cd"))%Z /\
  (let r := applyOperation d (mkOperation "delete" (mkPosition 1 1) None None "u") "i" in
   snd r = true /\
   js_split nl_char (content (fst r)) =
     <[Z.to_nat 1 := (String.substring 0 (Z.to_nat 1) "cd" ++ "cd")%string]> (js_split nl_char (content d))).
Proof.
  intros d. assert (H1 : js_index (js_split nl_char (content d)) 1 = Some "cd") by reflexivity.
  assert (H2 : (0 <= 1 <= Z.of_nat (String.length "cd"))%Z) by (simpl; lia).
  split; [exact H1|]. split; [exact H2|]. exact (CodeDoc_delete_without_length d 1 1 "cd" "u" "i" None H1 H2).
Defined.

Lemma update_first_None (uid : string) (pos : Position) (t : Z) (l : list Cursor) :
  update_first uid pos t l = None -> ~ In uid (map cu_userId l).
Proof.
  induction l as [|c r IH]; simpl; [tauto|].
  destruct (String.eqb_spec (cu_userId c) uid); [discriminate|].
  destruct (update_first uid pos t r); [discriminate|]. intros _ [H|H]; [congruence|]. exact (IH eq_refl H).
Qed.

Lemma update_first_Some (uid : string) (pos : Position) (t : Z) (l l' : list Cursor) :
  update_first uid pos t l = Some l' ->
  map cu_userId l' = map cu_userId l /\
  (exists c, In c l' /\ cu_userId c = uid /\ cu_position c = pos /\ cu_isActive c = true /\
             cu_lastUpdate c = t) /\
  (forall c, In c l -> cu_userId c <> uid -> In c l').
Proof.
  revert l'. induction l as [|c r IH]; intros l'; simpl; [discriminate|].
  destruct (String.eqb_spec (cu_userId c) uid) as [Hc|Hc].
  - intros [= <-]. split; [reflexivity|]. split.
    + eexists; split; [left; reflexivity|]. simpl. auto.
    + intros x [->|Hx] Hn; [congruence|]. right; exact Hx.
  - destruct (update_first uid pos t r) as [r'|] eqn:E; [|discriminate]. intros [= <-].
    destruct (IH r' eq_refl) as (Hm & (x & Hx & Hp) & Hk). split; [simpl; congruence|]. split.
    + exists x. split; [right; exact Hx | exact Hp].
    + intros y [<-|Hy] Hn; [left; reflexivity | right; apply Hk; assumption].
Qed.

Lemma NoDup_map_filter {A B} (f : A -> B) (p : A -> bool) (l : list A) :
  NoDup (map f l) -> NoDup (map f (List.filter p l)).
Proof.
  induction l as [|x r IH]; simpl; intros H; [constructor|].
  apply NoDup_cons in H as [Hx Hr]. destruct (p x); [|exact (IH Hr)].
  simpl. constructor; [|exact (IH Hr)].
  intros Hin. apply Hx. apply list_elem_of_In in Hin. apply in_map_iff in Hin as (y & Hy & Hin).
  apply List.filter_In in Hin as [Hin _]. apply list_elem_of_In, in_map_iff. exists y. auto.
Qed.

(** [updateCursor] keeps one cursor per user: the user's cursor is
    present with the new position, active and stamped now, every cursor
    kept is less than 60 s old, and the other users' fresh cursors stay. *)
Theorem CodeDoc_updateCursor_spec (d : Doc) (uid uname : string) (pos : Position) (color : string)
    (t now : Z) :
  NoDup (map cu_userId (cursors d)) ->
  (now - t < 60000)%Z ->
  let cs := cursors (updateCursor d uid uname pos color t now) in
  NoDup (map cu_userId cs) /\
  (exists c, In c cs /\ cu_userId c = uid /\ cu_position c = pos /\ cu_isActive c = true /\
             cu_lastUpdate c = t) /\
  (forall c, In c cs -> (now - cu_lastUpdate c < 60000)%Z) /\
  (forall c, In c (cursors d) -> cu_userId c <> uid -> (now - cu_lastUpdate c < 60000)%Z -> In c cs).
Proof.
  intros Hnd Ht cs. subst cs. unfold updateCursor, set_cursors. cbn [cursors].
  set (keep := fun c => (now - cu_lastUpdate c <? 60000)%Z).
  assert (Hkeep : forall c l, In c (List.filter keep l) <-> In c l /\ (now - cu_lastUpdate c < 60000)%Z).
  { intros c l. rewrite List.filter_In. unfold keep. rewrite Z.ltb_lt. reflexivity. }
  destruct (update_first uid pos t (cursors d)) as [l'|] eqn:E.
  - destruct (update_first_Some _ _ _ _ _ E) as (Hm & (x & Hx & Hu & Hp & Ha & Hl) & Hk).
    split; [apply NoDup_map_filter; rewrite Hm; exact Hnd|]. split.
    + exists x. split; [apply Hkeep; split; [exact Hx | lia]|]. auto.
    + split; [intros c Hc; apply Hkeep in Hc; tauto|].
      intros c Hc Hn Hf. apply Hkeep. split; [apply Hk; assumption | exact Hf].
  - pose proof (update_first_None _ _ _ _ E) as Hni.
    split.
    + apply NoDup_map_filter. rewrite map_app. simpl.
      apply NoDup_app. split; [exact Hnd|]. split; [|apply NoDup_singleton].
      intros y Hy Hy'. apply list_elem_of_singleton in Hy'. subst y.
      apply Hni. apply list_elem_of_In. exact Hy.
    + split.
      * eexists. split; [apply Hkeep; split; [apply in_or_app; right; left; reflexivity | simpl; lia]|].
        simpl. auto.
      * split; [intros c Hc; apply Hkeep in Hc; tauto|].
        intros c Hc Hn Hf. apply Hkeep. split; [apply in_or_app; left; exact Hc | exact Hf].
Qed.

Lemma CodeDoc_updateCursor_spec_witness :
  let d := mkDoc EmptyString 0 false 0 []
             [mkCursor "a" "Ann" (mkPosition 0 0) "#fff" true 100;
              mkCursor "b" "Bob" (mkPosition 1 2) "#000" true 30000] [] in
  NoDup (map cu_userId (cursors d)) /\ (70000 - 65000 < 60000)%Z /\
  (let cs := cursors (updateCursor d "b" "Bob" (mkPosition 3 4) "#667eea" 65000 70000) in
   NoDup (map cu_userId cs) /\
   (exists c, In c cs /\ cu_userId c = "b" /\ cu_position c = mkPosition 3 4 /\ cu_isActive c = true /\
              cu_lastUpdate c = 65000%Z) /\
   (forall c, In c cs -> (70000 - cu_lastUpdate c < 60000)%Z) /\
   (forall c, In c (cursors d) -> cu_userId c <> "b" -> (70000 - cu_lastUpdate c < 60000)%Z -> In c cs)).
Proof.
  intros d.
  assert (H1 : NoDup (map cu_userId (cursors d))) by (repeat constructor; set_solver).
  assert (H2 : (70000 - 65000 < 60000)%Z) by lia.
  split; [exact H1|]. split; [exact H2|]. exact (CodeDoc_updateCursor_spec d "b" "Bob" _ _ _ _ H1 H2).
Defined.

Lemma filter_other_idem (uid : string) (l : list TypingUser) :
  List.filter (other_user uid) (List.filter (other_user uid) l) = List.filter (other_user uid) l.
Proof.
  induction l as [|x r IH]; simpl; [reflexivity|].
  destruct (other_user uid x) eqn:E; simpl; [rewrite E, IH; reflexivity | exact IH].
Qed.

Lemma other_user_self (uid uname : string) (pos : Position) (t : Z) :
  other_user uid (mkTypingUser uid uname pos t) = false.
Proof. unfold other_user. simpl. now rewrite String.eqb_refl. Qed.

(** [setTyping] replaces the user's previous entry: clearing after
    setting is clearing, setting twice keeps only the latest, and the list
    holds exactly one entry of the user. *)
Theorem CodeDoc_setTyping_laws (d : Doc) (uid un1 un2 : string) (p1 p2 : Position) (t1 t2 : Z) :
  clearTyping (setTyping d uid un1 p1 t1) uid = clearTyping d uid /\
  setTyping (setTyping d uid un1 p1 t1) uid un2 p2 t2 = setTyping d uid un2 p2 t2 /\
  length (List.filter (fun u => String.eqb (ty_userId u) uid)
            (typingUsers (setTyping d uid un1 p1 t1))) = 1%nat.
Proof.
  unfold clearTyping, setTyping, set_typingUsers. cbn [typingUsers content version hasUnsavedChanges
    totalOperations operations cursors].
  rewrite !List.filter_app, filter_other_idem. simpl. rewrite other_user_self, app_nil_r.
  split; [reflexivity|]. split; [reflexivity|].
  rewrite String.eqb_refl, length_app. simpl.
  assert (H : List.filter (fun u => String.eqb (ty_userId u) uid) (List.filter (other_user uid) (typingUsers d)) = []).
  { induction (typingUsers d) as [|x r IH]; simpl; [reflexivity|].
    unfold other_user at 1. destruct (String.eqb (ty_userId x) uid) eqn:E; simpl; [exact IH|].
    rewrite E. exact IH. }
  rewrite H. reflexivity.
Qed.

(** The 3 s typing timeout after [setTyping] keeps the entry while less
    than 3000 ms have passed and removes it afterwards. *)
Theorem CodeDoc_typing_timeout_after_set (d : Doc) (uid un : string) (pos : Position) (t now : Z) :
  typing_timeout (setTyping d uid un pos t) uid now =
  if (now - t <? 3000)%Z then setTyping d uid un pos t else clearTyping d uid.
Proof.
  unfold typing_timeout, setTyping, clearTyping, set_typingUsers.
  cbn [typingUsers content version hasUnsavedChanges totalOperations operations cursors].
  rewrite List.filter_app. simpl. rewrite other_user_self. simpl.
  assert (H : List.filter (fun u => other_user uid u || (now - ty_startedAt u <? 3000)%Z)
                (List.filter (other_user uid) (typingUsers d)) = List.filter (other_user uid) (typingUsers d)).
  { induction (typingUsers d) as [|x r IH]; simpl; [reflexivity|].
    destruct (other_user uid x) eqn:E; simpl; [rewrite E; simpl; f_equal|]; exact IH. }
  rewrite H. destruct (now - t <? 3000)%Z; [reflexivity|]. rewrite app_nil_r. reflexivity.
Qed.

Import Routes.

Lemma bracket_step_badd (x : Z * Z * Z) (c : Ascii.ascii) :
  bracket_step x c = badd x (bracket_step (0%Z, 0%Z, 0%Z) c).
Proof.
  destruct x as [[p s] k]. unfold bracket_step, badd.
  repeat match goal with |- context [(?a =? ?b)%nat] => destruct (a =? b)%nat end;
  repeat f_equal; lia.
Qed.

Lemma badd_assoc (x y z : Z * Z * Z) : badd (badd x y) z = badd x (badd y z).
Proof. destruct x as [[? ?] ?], y as [[? ?] ?], z as [[? ?] ?]. simpl. f_equal; [f_equal|]; lia. Qed.

Lemma badd_comm (x y : Z * Z * Z) : badd x y = badd y x.
Proof. destruct x as [[? ?] ?], y as [[? ?] ?]. simpl. f_equal; [f_equal|]; lia. Qed.

Lemma badd_0 (x : Z * Z * Z) : badd x (0%Z, 0%Z, 0%Z) = x.
Proof. destruct x as [[? ?] ?]. simpl. f_equal; [f_equal|]; lia. Qed.

Lemma fold_bracket_badd (l : list Ascii.ascii) (x : Z * Z * Z) :
  fold_left bracket_step l x = badd x (fold_left bracket_step l (0%Z, 0%Z, 0%Z)).
Proof.
  revert x. induction l as [|c r IH]; intros x; cbn [fold_left]; [symmetry; apply badd_0|].
  rewrite IH, (IH (bracket_step (0%Z, 0%Z, 0%Z) c)), (bracket_step_badd x c). apply badd_assoc.
Qed.

Lemma list_ascii_app (a b : string) :
  String.list_ascii_of_string (a ++ b) = app (String.list_ascii_of_string a) (String.list_ascii_of_string b).
Proof. induction a as [|x a IH]; [reflexivity|]. rewrite str_app_cons. simpl. now rewrite IH. Qed.

Lemma trim_left_empty (s : string) :
  is_empty (trim_left s) = forallb js_space (String.list_ascii_of_string s).
Proof. induction s as [|c r IH]; [reflexivity|]. simpl. destruct (js_space c); [exact IH|reflexivity]. Qed.

Lemma trim_left_forall (s : string) :
  forallb js_space (String.list_ascii_of_string (trim_left s)) = forallb js_space (String.list_ascii_of_string s).
Proof. induction s as [|c r IH]; [reflexivity|]. simpl. destruct (js_space c) eqn:E; [exact IH|simpl; rewrite E; reflexivity]. Qed.

Lemma str_rev_list (s : string) :
  String.list_ascii_of_string (str_rev s) = rev (String.list_ascii_of_string s).
Proof. unfold str_rev. apply String.list_ascii_of_string_of_list_ascii. Qed.

Lemma is_empty_list (s : string) : is_empty s = match String.list_ascii_of_string s with [] => true | _ => false end.
Proof. destruct s; reflexivity. Qed.

Lemma forallb_rev {A} (f : A -> bool) (l : list A) : forallb f (rev l) = forallb f l.
Proof. induction l as [|x r IH]; simpl; [reflexivity|]. rewrite forallb_app, IH. simpl. rewrite andb_true_r. apply andb_comm. Qed.

Lemma js_trim_empty (s : string) :
  is_empty (js_trim s) = forallb js_space (String.list_ascii_of_string s).
Proof.
  unfold js_trim. rewrite is_empty_list, str_rev_list.
  destruct (rev (String.list_ascii_of_string (trim_left (str_rev (trim_left s))))) eqn:E.
  - apply (f_equal (@rev _)) in E. rewrite rev_involutive in E. simpl in E.
    rewrite <- trim_left_forall, <- (forallb_rev js_space (String.list_ascii_of_string (trim_left s))),
      <- str_rev_list, <- trim_left_empty, is_empty_list, E. reflexivity.
  - assert (Hne : is_empty (trim_left (str_rev (trim_left s))) = false).
    { rewrite is_empty_list. destruct (String.list_ascii_of_string (trim_left (str_rev (trim_left s)))); [discriminate|reflexivity]. }
    rewrite trim_left_empty, str_rev_list, forallb_rev, trim_left_forall in Hne. rewrite Hne. reflexivity.
Qed.

(** The JavaScript check of [validateCodeSyntax] only counts brackets:
    swapping two parts of the code gives the same verdict. *)
Theorem Routes_validate_javascript_order (a b : string) :
  validateCodeSyntax (a ++ b) "javascript" = validateCodeSyntax (b ++ a) "javascript".
Proof.
  unfold validateCodeSyntax. simpl String.eqb. cbv iota.
  rewrite !list_ascii_app, !fold_left_app.
  rewrite (fold_bracket_badd (String.list_ascii_of_string b)),
          (fold_bracket_badd (String.list_ascii_of_string a) (fold_left bracket_step (String.list_ascii_of_string b) _)).
  rewrite (badd_comm (fold_left bracket_step (String.list_ascii_of_string a) _)).
  unfold empty_error. rewrite !js_trim_empty, !list_ascii_app, !forallb_app, (andb_comm (forallb js_space _)).
  reflexivity.
Qed.

Lemma regex_strip_fuel_skip (p0 : Ascii.ascii) (pr : string) (fuel : nat) (h t : string) :
  (String.length h <= fuel)%nat ->
  forallb (fun x => negb (Ascii.eqb x p0)) (String.list_ascii_of_string h) = true ->
  regex_strip_fuel fuel (String p0 pr) (h ++ t) =
  (h ++ regex_strip_fuel (fuel - String.length h) (String p0 pr) t)%string.
Proof.
  revert fuel. induction h as [|c h IH]; intros fuel Hf Hh.
  - simpl. rewrite Nat.sub_0_r. reflexivity.
  - simpl in Hf, Hh. apply andb_prop in Hh as [Hc Hh]. destruct fuel as [|f]; [lia|].
    rewrite str_app_cons. cbn [regex_strip_fuel].
    assert (Hp : String.prefix (String p0 pr) (String c (h ++ t)) = false).
    { simpl. destruct (Ascii.ascii_dec p0 c) as [->|]; [rewrite Ascii.eqb_refl in Hc; discriminate|reflexivity]. }
    rewrite Hp, IH by (lia || exact Hh). reflexivity.
Qed.

Lemma regex_strip_header (p0 : Ascii.ascii) (pr t : string) :
  forallb (fun x => negb (Ascii.eqb x p0)) (String.list_ascii_of_string error_header) = true ->
  exists t', regex_strip (String p0 pr) (error_header ++ t) = (error_header ++ t')%string.
Proof.
  intros H. unfold regex_strip. rewrite regex_strip_fuel_skip; [eexists; reflexivity | |exact H].
  rewrite str_length_app. lia.
Qed.

Lemma prefix_app (a b : string) : String.prefix a (a ++ b) = true.
Proof.
  induction a as [|x a IH]; [destruct b; reflexivity|].
  rewrite str_app_cons. simpl. destruct (Ascii.ascii_dec x x); [exact IH|congruence].
Qed.

Lemma format_error_header (output error language : string) :
  is_empty error = false ->
  String.prefix error_header (fst (formatExecutionOutput output error language)) = true.
Proof.
  intros He. unfold formatExecutionOutput. rewrite He. cbn [negb].
  destruct (String.eqb language "javascript").
  - destruct (regex_strip_header (Ascii.ascii_of_nat 97) "t Object.<anonymous>" (nl ++ error)) as [t1 E1];
      [vm_compute; reflexivity|].
    change "at Object.<anonymous>" with (String (Ascii.ascii_of_nat 97) "t Object.<anonymous>").
    change "at Module._compile" with (String (Ascii.ascii_of_nat 97) "t Module._compile").
    rewrite E1.
    destruct (regex_strip_header (Ascii.ascii_of_nat 97) "t Module._compile" t1) as [t2 E2]; [vm_compute; reflexivity|].
    rewrite E2. apply prefix_app.
  - destruct (String.eqb language "python"); [|apply prefix_app].
    assert (Hs : js_split nl_char (error_header ++ nl ++ error) =
                 error_header :: js_split nl_char error).
    { rewrite js_split_lacks_app by reflexivity. cbn [js_split].
      change nl with (String nl_char EmptyString). rewrite str_app_cons.
      change (EmptyString ++ error)%string with error. cbn [js_split]. rewrite Ascii.eqb_refl.
      now rewrite str_app_nil_r. }
    rewrite Hs. cbn [List.filter].
    rewrite (eq_refl : (negb (js_includes error_header ("File " ++ dq ++ "<stdin>" ++ dq)) &&
                        negb (js_includes error_header "Traceback (most recent call last)")) = true).
    cbn [length Nat.ltb Nat.leb]. simpl (0 <? S _)%nat.
    destruct (List.filter _ (js_split nl_char error)) as [|y r].
    + reflexivity.
    + cbn [js_join]. apply prefix_app.
Qed.

(** The [executionResult] of [POST /run] is a success exactly when
    neither the run nor the compilation wrote to stderr, whatever the exit
    code; a failure's output starts with the error header. *)
Theorem Routes_executionResult_success (language stdout stderr compile_stderr : string)
    (code memory executionTime now : Z) :
  let r := executionResult language stdout stderr compile_stderr code memory executionTime now in
  er_success r = is_empty stderr && is_empty compile_stderr /\
  (er_success r = false -> String.prefix error_header (er_output r) = true).
Proof.
  intros r. subst r. unfold executionResult. cbn [er_success er_output].
  set (error := if negb (is_empty stderr) then stderr else compile_stderr).
  assert (Hs : snd (formatExecutionOutput stdout error language) = negb (is_empty error)).
  { unfold formatExecutionOutput. destruct (negb (is_empty error)); [reflexivity|].
    destruct (negb (is_empty stdout)); reflexivity. }
  rewrite Hs. split.
  - subst error. destruct (is_empty stderr) eqn:E; simpl; try rewrite E;
    destruct (is_empty compile_stderr); reflexivity.
  - intros H. apply format_error_header. destruct (is_empty error); [discriminate|reflexivity].
Qed.

(** The validation of [POST /run] lets a request through exactly when
    the code is nonempty and the language is a key of [languageMapping] or
    a name inherited from [Object.prototype]. *)
Theorem Routes_run_validate_accepts (code language : string) :
  run_validate code language = None <->
  code <> EmptyString /\ (In language (map fst languageMapping) \/ In language object_prototype_keys).
Proof.
  unfold run_validate, js_get, truthy.
  assert (Hp : is_proto_key language = true <-> In language object_prototype_keys).
  { unfold is_proto_key. rewrite existsb_exists. split.
    - intros (x & Hx & E). apply String.eqb_eq in E. subst. exact Hx.
    - intros H. exists language. split; [exact H | apply String.eqb_refl]. }
  destruct (is_empty code) eqn:Ec.
  - destruct code; [|discriminate]. simpl. split; [discriminate|tauto].
  - assert (Hc : code <> EmptyString) by (intros ->; discriminate).
    destruct (find (fun kv => String.eqb (fst kv) language) languageMapping) as [[k v]|] eqn:Ef.
    + apply find_some in Ef as [Hin Hk]. apply String.eqb_eq in Hk. simpl in Hk. subst k.
      assert (Hall : Forall (fun kv => is_empty (fst kv) = false /\ is_empty (snd kv) = false) languageMapping)
        by (repeat constructor).
      rewrite List.Forall_forall in Hall. destruct (Hall _ Hin) as [Hl Hv]. simpl in Hl, Hv.
      rewrite Hl, Hv. cbn [orb negb]. split; [intros _; split; [exact Hc|left]|reflexivity].
      apply in_map_iff. exists (language, v). auto.
    + assert (Hn : ~ In language (map fst languageMapping)).
      { intros Hin. apply in_map_iff in Hin as ([k v] & Hk & Hin). simpl in Hk. subst k.
        pose proof (find_none _ _ Ef _ Hin) as Hf. simpl in Hf. rewrite String.eqb_refl in Hf. discriminate. }
      destruct (is_proto_key language) eqn:Ep.
      * assert (Hl : is_empty language = false).
        { pose proof (proj1 Hp eq_refl) as Hpin. destruct language; [simpl in Hpin; intuition discriminate|reflexivity]. }
        rewrite Hl. cbn [orb negb]. split; [intros _; split; [exact Hc | right; apply Hp; reflexivity]|reflexivity].
      * cbn [orb negb truthy]. destruct (is_empty language); (split; [discriminate|]);
          intros [_ [H|H]]; [contradiction | apply Hp in H; congruence | contradiction | apply Hp in H; congruence].
Qed.

(** [GET /languages] with a runtime list answers 200 with the mapped
    languages whose Piston name has a runtime, in mapping order, each with
    the version of such a runtime, and a total equal to their number. *)
Theorem Routes_languages_listing (rts : list Runtime) :
  let '(status, langs, total) := languages_route (Some rts) in
  status = 200%Z /\ total = length langs /\
  map li_name langs =
    map fst (List.filter (fun kv => existsb (fun r => String.eqb (rt_language r) (snd kv)) rts)
                         languageMapping) /\
  Forall (fun li => exists r, In r rts /\ rt_language r = li_pistonName li /\
                              li_version li = rt_version r) langs.
Proof.
  unfold languages_route. cbv beta iota zeta. split; [reflexivity|]. split; [reflexivity|].
  assert (Hav : forall kv, li_available (lang_info rts kv) =
                           existsb (fun r => String.eqb (rt_language r) (snd kv)) rts).
  { intros kv. unfold lang_info. cbn [li_available].
    destruct (find _ rts) eqn:E.
    - apply find_some in E as [Hin Hk]. symmetry. apply existsb_exists. eauto.
    - symmetry. apply not_true_iff_false. intros Hx. apply existsb_exists in Hx as (r & Hr & Hk).
      rewrite (find_none _ _ E r Hr) in Hk. discriminate. }
  split.
  - generalize languageMapping as lm. induction lm as [|kv r IH]; [reflexivity|]. cbn [map List.filter]. rewrite Hav.
    destruct (existsb _ rts); simpl; [f_equal|]; exact IH.
  - apply List.Forall_forall. intros li Hli. apply List.filter_In in Hli as [Hli Ha].
    apply in_map_iff in Hli as (kv & <- & _). unfold lang_info in Ha |- *. cbn [li_available li_version li_pistonName] in *.
    destruct (find _ rts) as [r|] eqn:E; [|discriminate].
    apply find_some in E as [Hin Hk]. apply String.eqb_eq in Hk. eauto.
Qed.

Lemma bump_own_Some (lang : string) (t : Z) (ls l : LangStats) :
  bump_own lang t ls = Some l ->
  sum_counts l = S (sum_counts ls) /\ sum_times l = (sum_times ls + t)%Z /\ map fst l = map fst ls.
Proof.
  revert l. induction ls as [|[k [c tot]] r IH]; intros l; simpl; [discriminate|].
  destruct (String.eqb k lang).
  - intros [= <-]. simpl. split; [reflexivity|]. split; [lia|reflexivity].
  - destruct (bump_own lang t r) as [r'|] eqn:E; [|discriminate]. intros [= <-].
    destruct (IH r' eq_refl) as (H1 & H2 & H3). simpl. rewrite H1, H2, H3. split; [lia|]. split; [lia|reflexivity].
Qed.

Lemma bump_own_None (lang : string) (t : Z) (ls : LangStats) :
  bump_own lang t ls = None -> ~ In lang (map fst ls).
Proof.
  induction ls as [|[k [c tot]] r IH]; simpl; [tauto|].
  destruct (String.eqb_spec k lang); [discriminate|].
  destruct (bump_own lang t r); [discriminate|]. intros _ [H|H]; [congruence | exact (IH eq_refl H)].
Qed.

Lemma sum_counts_app (a b : LangStats) : sum_counts (app a b) = (sum_counts a + sum_counts b)%nat.
Proof. induction a as [|x r IH]; simpl; [reflexivity|]. rewrite IH. lia. Qed.

Lemma sum_times_app (a b : LangStats) : sum_times (app a b) = (sum_times a + sum_times b)%Z.
Proof. induction a as [|x r IH]; simpl; [reflexivity|]. rewrite IH. lia. Qed.

Lemma bump_inv (lang : string) (t : Z) (ls : LangStats) :
  stats_inv ls ->
  stats_inv (bump lang t ls) /\
  (is_proto_key lang = false ->
     sum_counts (bump lang t ls) = S (sum_counts ls) /\ sum_times (bump lang t ls) = (sum_times ls + t)%Z) /\
  (is_proto_key lang = true -> bump lang t ls = ls).
Proof.
  intros [Hnd Hk]. unfold bump.
  destruct (bump_own lang t ls) as [l|] eqn:E.
  - destruct (bump_own_Some _ _ _ _ E) as (H1 & H2 & H3). split; [unfold stats_inv; rewrite H3; auto|].
    split; [auto|]. intros Hp. exfalso.
    assert (Hin : In lang (map fst ls)).
    { clear -E. revert l E. induction ls as [|[k [c tot]] r IH]; intros l; simpl; [discriminate|].
      destruct (String.eqb_spec k lang); [auto|]. destruct (bump_own lang t r) as [r'|]; [|discriminate].
      intros _. right. exact (IH r' eq_refl). }
    rewrite List.Forall_forall in Hk. rewrite (Hk _ Hin) in Hp. discriminate.
  - pose proof (bump_own_None _ _ _ E) as Hn.
    destruct (is_proto_key lang) eqn:Hp.
    + split; [split; assumption|]. split; [discriminate|reflexivity].
    + split.
      * unfold stats_inv. rewrite map_app. simpl. split.
        -- apply NoDup_app. split; [exact Hnd|]. split; [|apply NoDup_singleton].
           intros y Hy Hy'. apply list_elem_of_singleton in Hy'. subst y. apply Hn. apply list_elem_of_In. exact Hy.
        -- apply Forall_app. split; [exact Hk|]. constructor; [exact Hp | constructor].
      * split; [|discriminate]. intros _. rewrite sum_counts_app, sum_times_app. simpl. split; lia.
Qed.

Lemma stats_fold (uid : string) (l : list Execution) (n : nat) (tot : Z) (ls : LangStats) :
  stats_inv ls ->
  let '(n', tot', ls') := fold_left (stats_acc uid) l (n, tot, ls) in
  n' = (n + length (List.filter (by_user uid) l))%nat /\
  tot' = (tot + zsum (map ex_time (List.filter (by_user uid) l)))%Z /\
  sum_counts ls' = (sum_counts ls + length (List.filter (counted uid) l))%nat /\
  sum_times ls' = (sum_times ls + zsum (map ex_time (List.filter (counted uid) l)))%Z /\
  stats_inv ls'.
Proof.
  revert n tot ls. induction l as [|e r IH]; intros n tot ls Hinv.
  - simpl. repeat split; try lia; apply Hinv.
  - cbn [fold_left List.filter]. unfold stats_acc at 2.
    change (String.eqb (ex_executedBy e) uid) with (by_user uid e).
    change (counted uid e) with (by_user uid e && negb (is_proto_key (ex_language e))).
    destruct (by_user uid e) eqn:Eu; cbn [andb].
    + destruct (bump_inv (ex_language e) (ex_time e) ls Hinv) as (Hinv' & Hnp & Hpk).
      specialize (IH (S n) (tot + ex_time e)%Z (bump (ex_language e) (ex_time e) ls) Hinv').
      destruct (fold_left (stats_acc uid) r _) as [[n' tot'] ls'].
      destruct IH as (H1 & H2 & H3 & H4 & H5).
      destruct (is_proto_key (ex_language e)) eqn:Ep; cbn [negb length map zsum fold_right].
      * rewrite (Hpk eq_refl) in H3, H4. unfold zsum in *. cbn [fold_right length]. refine (conj _ (conj _ (conj _ (conj _ H5)))); lia.
      * destruct (Hnp eq_refl) as [Hc Ht]. rewrite Hc in H3. rewrite Ht in H4.
        unfold zsum in *. cbn [fold_right length]. refine (conj _ (conj _ (conj _ (conj _ H5)))); lia.
    + exact (IH n tot ls Hinv).
Qed.

Lemma fold_sessions {A B} (f : A -> B -> A) (sessions : list (list B)) (a : A) :
  fold_left (fun acc h => fold_left f h acc) sessions a = fold_left f (concat sessions) a.
Proof. revert a. induction sessions as [|h r IH]; intros a; simpl; [reflexivity|]. rewrite fold_left_app. apply IH. Qed.

(** [GET /stats] counts all executions of the user, sums their times,
    and breaks them down per language with distinct keys, leaving out
    executions whose language is a name of [Object.prototype]. *)
Theorem Routes_stats_breakdown (uid : string) (sessions : list (list Execution)) :
  let st := stats_route uid sessions in
  let mine := List.filter (by_user uid) (concat sessions) in
  let listed := List.filter (counted uid) (concat sessions) in
  totalExecutions st = length mine /\
  totalExecutionTime st = zsum (map ex_time mine) /\
  sum_counts (languageBreakdown st) = length listed /\
  sum_times (languageBreakdown st) = zsum (map ex_time listed) /\
  NoDup (map fst (languageBreakdown st)) /\
  sessionsParticipated st = length sessions.
Proof.
  intros st mine listed. subst st mine listed. unfold stats_route. rewrite fold_sessions.
  assert (H0 : stats_inv []) by (split; constructor).
  pose proof (stats_fold uid (concat sessions) 0 0 [] H0) as H.
  destruct (fold_left (stats_acc uid) (concat sessions) _) as [[n tot] ls].
  destruct H as (H1 & H2 & H3 & H4 & [H5 _]). cbn [totalExecutions totalExecutionTime languageBreakdown sessionsParticipated].
  simpl in H1, H2, H3, H4. repeat split; try assumption; lia.
Qed.

Lemma addExecution_history (s : SessionExec) (data : Execution) (now : Z) :
  executionHistory (addExecution s data now) =
  take 20 (mkExecution (ex_code data) (ex_language data) (ex_input data) (ex_output data)
             (ex_error data) (ex_executionTime data) (ex_memoryUsed data) (ex_executedBy data) now
           :: executionHistory s).
Proof.
  unfold addExecution. cbn [executionHistory].
  destruct (20 <? _)%nat eqn:E; [reflexivity|]. apply Nat.ltb_ge in E. symmetry. apply take_ge. exact E.
Qed.

Lemma addExecution_fold (uid : string) (datas : list (Execution * Z)) (s : SessionExec) :
  Forall (fun dn => ex_executedBy (fst dn) = uid) datas ->
  Forall (fun e => by_user uid e = true) (executionHistory s) ->
  length (executionHistory s) <= 20 ->
  let s' := fold_left (fun s dn => addExecution s (fst dn) (snd dn)) datas s in
  stats_totalExecutions s' = (stats_totalExecutions s + Z.of_nat (length datas))%Z /\
  length (executionHistory s') = Nat.min (length (executionHistory s) + length datas) 20 /\
  Forall (fun e => by_user uid e = true) (executionHistory s').
Proof.
  revert s. induction datas as [|[d t] r IH]; intros s Hd Hh Hl; cbn [fold_left].
  - simpl. split; [lia|]. split; [lia|exact Hh].
  - apply Forall_cons in Hd as [Hd1 Hdr]. cbn [fst] in Hd1.
    assert (Hh' : Forall (fun e => by_user uid e = true) (executionHistory (addExecution s d t))).
    { rewrite addExecution_history. apply Forall_take. constructor; [|exact Hh].
      unfold by_user. simpl. rewrite Hd1. apply String.eqb_refl. }
    assert (Hl' : length (executionHistory (addExecution s d t)) = Nat.min (S (length (executionHistory s))) 20).
    { rewrite addExecution_history, length_take. cbn [length]. lia. }
    destruct (IH (addExecution s d t) Hdr Hh' ltac:(lia)) as (H1 & H2 & H3).
    assert (Ht : stats_totalExecutions (addExecution s d t) = (stats_totalExecutions s + 1)%Z) by reflexivity.
    cbn [fst snd] in *. rewrite H1, H2, Hl', Ht. cbn [length].
    split; [lia|]. split; [lia|exact H3].
Qed.

(** [addExecution] counts every execution but keeps only the last 20 in
    the history, so the statistics route sees at most 20 of them. *)
Theorem Routes_history_cap (uid : string) (t0 : Z) (datas : list (Execution * Z)) :
  Forall (fun dn => ex_executedBy (fst dn) = uid) datas ->
  let s := fold_left (fun s dn => addExecution s (fst dn) (snd dn)) datas (mkSessionExec [] 0 t0) in
  stats_totalExecutions s = Z.of_nat (length datas) /\
  length (executionHistory s) = Nat.min (length datas) 20 /\
  totalExecutions (stats_route uid [executionHistory s]) = Nat.min (length datas) 20.
Proof.
  intros Hd s. subst s.
  destruct (addExecution_fold uid datas (mkSessionExec [] 0 t0) Hd (Forall_nil_2 _) ltac:(simpl; lia))
    as (H1 & H2 & H3).
  cbn [stats_totalExecutions executionHistory length] in *. rewrite Nat.add_0_l in H2.
  split; [lia|]. split; [exact H2|].
  unfold stats_route. cbn [fold_left].
  pose proof (stats_fold uid (executionHistory (fold_left (fun s dn => addExecution s (fst dn) (snd dn)) datas
    (mkSessionExec [] 0 t0))) 0 0 [] ltac:(split; constructor)) as H4.
  destruct (fold_left (stats_acc uid) _ _) as [[n tot] ls]. destruct H4 as (H4 & _).
  cbn [totalExecutions]. rewrite H4, <- H2. simpl. f_equal.
  clear -H3. induction H3 as [|e r He _ IH]; simpl; [reflexivity|]. rewrite He, IH. reflexivity.
Qed.

Import Cors.

Lemma existsb_eqb_In (o : string) (l : list string) : existsb (String.eqb o) l = true <-> In o l.
Proof.
  rewrite existsb_exists. split.
  - intros (x & Hx & E). apply String.eqb_eq in E. subst. exact Hx.
  - intros H. exists o. split; [exact H | apply String.eqb_refl].
Qed.

(** [getCorsOrigins] never allows every origin, and a nonempty origin is
    allowed exactly when it is [CLIENT_URL], a piece of [ALLOWED_ORIGINS]
    split at commas, or a default origin of the current [NODE_ENV]. *)
Theorem Cors_policy (env : Env) :
  getCorsOrigins env <> Flag true /\
  forall o : string, is_empty o = false ->
  (cors_origin (getCorsOrigins env) (Some o) = true <->
   env_set (CLIENT_URL env) = Some o \/
   (exists a, env_set (ALLOWED_ORIGINS env) = Some a /\ In o (js_split (Ascii.ascii_of_nat 44) a)) \/
   (env_is (NODE_ENV env) "production" = true /\ In o production_origins) \/
   (env_is (NODE_ENV env) "development" = true /\ In o development_origins)).
Proof.
  unfold getCorsOrigins.
  set (l := app (app (app (match env_set (CLIENT_URL env) with Some u => [u] | None => [] end)
                  (match env_set (ALLOWED_ORIGINS env) with
                   | Some a => js_split (Ascii.ascii_of_nat 44) a | None => [] end))
                  (if env_is (NODE_ENV env) "production" then production_origins else []))
                  (if env_is (NODE_ENV env) "development" then development_origins else [])).
  assert (Hin : forall o, In o l <->
     env_set (CLIENT_URL env) = Some o \/
     (exists a, env_set (ALLOWED_ORIGINS env) = Some a /\ In o (js_split (Ascii.ascii_of_nat 44) a)) \/
     (env_is (NODE_ENV env) "production" = true /\ In o production_origins) \/
     (env_is (NODE_ENV env) "development" = true /\ In o development_origins)).
  { intros o. unfold l. rewrite !in_app_iff.
    destruct (env_set (CLIENT_URL env)) as [u|]; destruct (env_set (ALLOWED_ORIGINS env)) as [a|];
    destruct (env_is (NODE_ENV env) "production"); destruct (env_is (NODE_ENV env) "development");
    simpl; intuition (try congruence; try (subst; auto));
    try (destruct H0 as (a' & Ha & Hi); first [discriminate | injection Ha as <-; auto]);
    try (right; left; eexists; split; [reflexivity|assumption]); try (left; f_equal; assumption);
    try (destruct H as (a' & Ha & Hi); first [discriminate | injection Ha as <-; auto]). }
  destruct l as [|x r] eqn:El.
  - assert (Hd : env_is (NODE_ENV env) "development" = false).
    { destruct (env_is (NODE_ENV env) "development") eqn:E; [|reflexivity].
      exfalso. refine (proj2 (Hin "http://localhost:3000") _).
      right; right; right. split; [reflexivity | left; reflexivity]. }
    rewrite Hd in Hin |- *. split; [discriminate|]. intros o Ho. unfold cors_origin.
    assert (Eo : env_set (Some o) = Some o) by (simpl; rewrite Ho; reflexivity). rewrite Eo.
    split; [discriminate|]. intros H. apply Hin in H. destruct H.
  - split; [discriminate|]. intros o Ho. unfold cors_origin.
    assert (Eo : env_set (Some o) = Some o) by (simpl; rewrite Ho; reflexivity). rewrite Eo.
    rewrite <- Hin. apply existsb_eqb_In.
Qed.

(** In the second version, [code-change] stores the code of any active
    session for any socket, member or not, and the next joiner receives
    that code. *)
Theorem V2_code_change_any_socket (st : V2.State) (s s' sid c : string) (op : option string)
    (u : User) (now now' : Z) :
  is_empty sid = false ->
  V1.objectid_is_valid sid = true ->
  is_Some (V2.activeSessions st !! sid) ->
  let st1 := fst (V2.code_change st s sid (Some c) op now) in
  V2.sessionCode st1 !! sid = Some c /\
  exists ps, In (V2.mkOut2 (ToSocket s') "session-joined" (V2.QSessionJoined ps (Some c) sid))
                (snd (V2.join_session st1 s' sid (Some u) now')).
Proof.
  intros He Hv [m Hm] st1. subst st1. unfold V2.code_change. rewrite He. cbn [fst V2.sessionCode].
  split; [apply lookup_insert_eq|].
  unfold V2.join_session. rewrite He, Hv. cbn [negb V2.activeSessions V2.sessionCode V2.sessionCursors].
  rewrite Hm. cbn [snd]. rewrite lookup_insert_eq. eexists. left. reflexivity.
Qed.

(** In the second version, when the last member leaves a session its
    membership, code and cursors are dropped, and the next joiner gets the
    welcome code again. *)
Theorem V2_last_leave_resets (st : V2.State) (s s' sid : string) (ud u : User) (now now' : Z) :
  V2.activeSessions st !! sid = Some {[ s := ud ]} ->
  V1.objectid_is_valid sid = true ->
  let st1 := fst (V2.handleUserLeaveSession st s sid now) in
  V2.activeSessions st1 !! sid = None /\ V2.sessionCode st1 !! sid = None /\
  V2.sessionCursors st1 !! sid = None /\
  In (V2.mkOut2 (ToSocket s') "session-joined" (V2.QSessionJoined [u] (Some V1.welcome) sid))
     (snd (V2.join_session st1 s' sid (Some u) now')).
Proof.
  intros Ha Hv st1. subst st1. unfold V2.handleUserLeaveSession. rewrite Ha, lookup_singleton_eq.
  rewrite delete_singleton_eq. cbn [fst]. rewrite map_size_empty. cbn [Nat.eqb].
  cbn [V2.activeSessions V2.sessionCode V2.sessionCursors].
  assert (Hne : is_empty sid = false).
  { destruct sid; [discriminate Hv|reflexivity]. }
  split; [apply lookup_delete_eq|]. split; [apply lookup_delete_eq|]. split; [apply lookup_delete_eq|].
  unfold V2.join_session. rewrite Hne, Hv. cbn [negb V2.activeSessions V2.sessionCode].
  cbn [fst V2.activeSessions V2.sessionCode V2.sessionCursors]. rewrite lookup_delete_eq. cbn [snd]. rewrite lookup_insert_eq, lookup_insert_eq. cbn [default].
  unfold id. rewrite insert_empty, map_to_list_singleton. left. reflexivity.
Qed.

Lemma CodeDoc_insert_delete_roundtrip_witness :
  let d := mkDoc ("let x;" ++ nl ++ "f()") 3 false 3 [] [] [] in
  js_index (js_split nl_char (content d)) 1 = Some "f()" /\
  (0 <= 2 <= Z.of_nat (String.length "f()"))%Z /\
  js_includes "1, 2" nl = false /\
  (let r1 := applyOperation d (mkOperation "insert" (mkPosition 1 2) (Some "1, 2") None "u") "i1" in
   let r2 := applyOperation (fst r1)
               (mkOperation "delete" (mkPosition 1 2) None (Some (Z.of_nat (String.length "1, 2"))) "u") "i2" in
   snd r1 = true /\ snd r2 = true /\ content (fst r2) = content d /\
   version (fst r2) = (version d + 2)%Z).
Proof.
  intros d.
  assert (H1 : js_index (js_split nl_char (content d)) 1 = Some "f()") by reflexivity.
  assert (H2 : (0 <= 2 <= Z.of_nat (String.length "f()"))%Z) by (simpl; lia).
  assert (H3 : js_includes "1, 2" nl = false) by reflexivity.
  split; [exact H1|]. split; [exact H2|]. split; [exact H3|].
  exact (CodeDoc_insert_delete_roundtrip d 1 2 "f()" "1, 2" "u" "u" "i1" "i2" None None H1 H2 H3).
Defined.

Lemma CodeDoc_multiline_insert_lines_witness :
  let d := mkDoc ("a" ++ nl ++ "b") 0 false 0 [] [] [] in
  let t := ("x" ++ nl ++ "y" ++ nl ++ "z")%string in
  is_empty (content d) = false /\
  js_index (js_split nl_char (content d)) 0 = Some "a" /\
  js_includes t nl = true /\
  (let r := applyOperation d (mkOperation "insert" (mkPosition 0 1) (Some t) None "u") "i" in
   snd r = true /\ linesOfCode (fst r) = (linesOfCode d + count_char nl_char t)%nat).
Proof.
  intros d t.
  assert (H1 : is_empty (content d) = false) by reflexivity.
  assert (H2 : js_index (js_split nl_char (content d)) 0 = Some "a") by reflexivity.
  assert (H3 : js_includes t nl = true) by reflexivity.
  split; [exact H1|]. split; [exact H2|]. split; [exact H3|].
  exact (CodeDoc_multiline_insert_lines d 0 1 "a" t "u" "i" None H1 H2 H3).
Defined.

Lemma Routes_history_cap_witness :
  let e := mkExecution "print(1)" "python" EmptyString "1" EmptyString (Some 5%Z) 0 "u1" 0 in
  let datas := map (fun k => (e, Z.of_nat k)) (seq 0 25) in
  Forall (fun dn => ex_executedBy (fst dn) = "u1") datas /\
  (let s := fold_left (fun s dn => addExecution s (fst dn) (snd dn)) datas (mkSessionExec [] 0 0) in
   stats_totalExecutions s = Z.of_nat (length datas) /\
   length (executionHistory s) = Nat.min (length datas) 20 /\
   totalExecutions (stats_route "u1" [executionHistory s]) = Nat.min (length datas) 20).
Proof.
  intros e datas.
  assert (H : Forall (fun dn => ex_executedBy (fst dn) = "u1") datas) by (repeat constructor).
  split; [exact H|]. exact (Routes_history_cap "u1" 0 datas H).
Defined.

Lemma V2_code_change_any_socket_witness :
  V2.sockets one_member !! "s9" = None /\
  (let st1 := fst (V2.code_change one_member "s9" "0123456789ab" (Some "evil()") None 1) in
   V2.sessionCode st1 !! "0123456789ab" = Some "evil()" /\
   exists ps, In (V2.mkOut2 (ToSocket "s2") "session-joined"
                    (V2.QSessionJoined ps (Some "evil()") "0123456789ab"))
                (snd (V2.join_session st1 "s2" "0123456789ab" (Some (mkUser "u2" "Bob")) 2))).
Proof.
  split; [reflexivity|].
  apply (V2_code_change_any_socket one_member "s9" "s2" "0123456789ab" "evil()" None (mkUser "u2" "Bob") 1 2).
  - reflexivity.
  - reflexivity.
  - eexists. reflexivity.
Defined.

Lemma V2_last_leave_resets_witness :
  V2.activeSessions one_member !! "0123456789ab" = Some {[ "s1" := mkUser "u1" "Ann" ]} /\
  V1.objectid_is_valid "0123456789ab" = true /\
  (let st1 := fst (V2.handleUserLeaveSession one_member "s1" "0123456789ab" 5) in
   V2.activeSessions st1 !! "0123456789ab" = None /\ V2.sessionCode st1 !! "0123456789ab" = None /\
   V2.sessionCursors st1 !! "0123456789ab" = None /\
   In (V2.mkOut2 (ToSocket "s2") "session-joined"
         (V2.QSessionJoined [mkUser "u2" "Bob"] (Some V1.welcome) "0123456789ab"))
      (snd (V2.join_session st1 "s2" "0123456789ab" (Some (mkUser "u2" "Bob")) 6))).
Proof.
  assert (H1 : V2.activeSessions one_member !! "0123456789ab" = Some {[ "s1" := mkUser "u1" "Ann" ]})
    by reflexivity.
  assert (H2 : V1.objectid_is_valid "0123456789ab" = true) by reflexivity.
  split; [exact H1|]. split; [exact H2|].
  exact (V2_last_leave_resets one_member "s1" "s2" "0123456789ab" (mkUser "u1" "Ann") (mkUser "u2" "Bob") 5 6 H1 H2).
Defined.
